(** * SIGACTS backend: the ingestion and aggregation engine

    A shallow embedding of the two [DataProcessor] classes of the
    repository:

    - [DP]  is the class of [src/data-processor.js];
    - [DP2] is the revised class that follows [src/server.js] in the same
      file (it normalises dates while loading, sorts them as strings and
      serves the heat map from a JSON document).

    JavaScript strings are modelled as Rocq strings, that is as sequences
    of code units below 256; every string operation the engine uses
    ([split], [includes], [padStart], [===], the default order of [sort])
    works unit by unit, so nothing depends on the width of a unit. *)

From Stdlib Require Import ZArith Lia Ascii String.
From stdpp Require Import base list strings sorting gmap.

Local Open Scope string_scope.
Local Open Scope Z_scope.
Local Open Scope list_scope.

(** ** The JavaScript primitives the engine relies on *)

Module JS.

(** [s.split(sep)] for a separator of one code unit.  The result is never
    empty: a string without separator is its own single part. *)
Fixpoint split (sep : ascii) (s : string) : list string :=
  match s with
  | EmptyString => [EmptyString]
  | String c s' =>
      if Ascii.eqb c sep then EmptyString :: split sep s'
      else match split sep s' with
           | p :: ps => String c p :: ps
           | [] => [String c EmptyString]
           end
  end.

(** [s.includes(c)] for a needle of one code unit. *)
Fixpoint includes (c : ascii) (s : string) : bool :=
  match s with
  | EmptyString => false
  | String a s' => Ascii.eqb a c || includes c s'
  end.

(** [s.padStart(2, '0')]. *)
Definition padStart2 (s : string) : string :=
  match s with
  | EmptyString => "00"
  | String c EmptyString => String "0" s
  | _ => s
  end.

(** Truthiness of a string: only the empty string is falsy. *)
Definition truthy (s : string) : bool :=
  match s with EmptyString => false | _ => true end.

(** [v || d] where [v] is a string or [undefined] ([None]). *)
Definition or_else (v : option string) (d : string) : string :=
  match v with
  | Some s => if truthy s then s else d
  | None => d
  end.

(** *** [parseInt] *)

(** White space and line terminators that [parseInt] skips. *)
Definition is_white (c : ascii) : bool :=
  match N_of_ascii c with
  | 9 | 10 | 11 | 12 | 13 | 32 | 160 => true
  | _ => false
  end%N.

Fixpoint trim_start (s : string) : string :=
  match s with
  | String c s' => if is_white c then trim_start s' else s
  | EmptyString => EmptyString
  end.

(** The value of a digit in a radix up to 16, if it is one. *)
Definition digit_value (radix : Z) (c : ascii) : option Z :=
  let n := Z.of_N (N_of_ascii c) in
  let v :=
    if (48 <=? n) && (n <=? 57) then Some (n - 48)
    else if (97 <=? n) && (n <=? 102) then Some (n - 87)
    else if (65 <=? n) && (n <=? 70) then Some (n - 55)
    else None in
  match v with
  | Some d => if d <? radix then Some d else None
  | None => None
  end.

(** Reads the longest prefix of digits; [acc] is [None] until a digit
    has been read. *)
Fixpoint read_digits (radix : Z) (acc : option Z) (s : string) : option Z :=
  match s with
  | EmptyString => acc
  | String c s' =>
      match digit_value radix c with
      | Some d => read_digits radix (Some (default 0 acc * radix + d)) s'
      | None => acc
      end
  end.

(** A JavaScript number as far as the engine looks at one: an integer or
    [NaN].  The hour is only compared with constants below 24 and a
    count is at most the number of records, so the rounding of integers
    beyond 2^53 is immaterial. *)
Inductive number := Num (n : Z) | NaN.

(** [parseInt(s)] without radix: leading white space, an optional sign,
    an optional [0x] prefix that selects radix 16, then digits. *)
Definition parseInt (s : string) : number :=
  let s := trim_start s in
  let '(sign, s) :=
    match s with
    | String "-" s' => (-1, s')
    | String "+" s' => (1, s')
    | _ => (1, s)
    end in
  let '(radix, s) :=
    match s with
    | String "0" (String "x" s') => (16, s')
    | String "0" (String "X" s') => (16, s')
    | _ => (10, s)
    end in
  match read_digits radix None s with
  | Some n => Num (sign * n)
  | None => NaN
  end.

(** [x >= lo && x < hi] on a number: false on [NaN]. *)
Definition in_range (x : number) (lo hi : Z) : bool :=
  match x with
  | Num n => (lo <=? n) && (n <? hi)
  | NaN => false
  end.

(** [x + 1] as computed by [x++]. *)
Definition succ (x : number) : number :=
  match x with Num n => Num (n + 1) | NaN => NaN end.

(** Truthiness of a number: [0] and [NaN] are falsy. *)
Definition truthy_number (x : number) : bool :=
  match x with Num n => negb (n =? 0) | NaN => false end.

(** *** Sorting *)

(** [a.sort()] on strings: ascending by code units.  The order is total
    and antisymmetric, so the sorted array is determined by its
    elements. *)
Definition sort (a : list string) : list string := merge_sort String.le a.

(** [a - b] on numbers. *)
Definition sub (a b : number) : number :=
  match a, b with
  | Num x, Num y => Num (x - y)
  | _, _ => NaN
  end.

(** [a + b] on numbers. *)
Definition add (a b : number) : number :=
  match a, b with
  | Num x, Num y => Num (x + y)
  | _, _ => NaN
  end.

(** [a.sort(cmp)]: [x] goes before [y] when [cmp x y] is negative, and a
    [NaN] from [cmp] counts as [0].  The sort is stable; it is written
    here as an insertion sort, which is what every stable sort returns
    when [cmp] is a consistent comparator (for others the language leaves
    the order to the implementation). *)
Definition sort_compare (v : number) : Z :=
  match v with Num n => n | NaN => 0 end.

Fixpoint insert_by (cmp : string -> string -> number) (x : string)
    (l : list string) : list string :=
  match l with
  | [] => [x]
  | y :: l' =>
      if sort_compare (cmp x y) <=? 0 then x :: l
      else y :: insert_by cmp x l'
  end.

Definition sort_by (cmp : string -> string -> number) (a : list string)
  : list string :=
  foldr (insert_by cmp) [] a.

(** [s.add(x)] on a [Set] of strings, and [new Set(a)] spread back into
    an array: first occurrences, in order. *)
Definition set_add (s : list string) (x : string) : list string :=
  if bool_decide (x ∈ s) then s else s ++ [x].

Definition unique (a : list string) : list string := foldl set_add [] a.

End JS.

(** ** Insertion-ordered tables

    A [Map], and the own properties of a plain object, list their keys in
    the order in which the keys were first set. *)

Module Assoc.

Section Operations.
Context {V : Type}.

Fixpoint get (m : list (string * V)) (k : string) : option V :=
  match m with
  | [] => None
  | (k', v) :: m' => if String.eqb k' k then Some v else get m' k
  end.

Definition has (m : list (string * V)) (k : string) : bool :=
  match get m k with Some _ => true | None => false end.

(** Setting a key that is present keeps its place; a new key goes last. *)
Fixpoint set (m : list (string * V)) (k : string) (v : V) : list (string * V) :=
  match m with
  | [] => [(k, v)]
  | (k', v') :: m' =>
      if String.eqb k' k then (k', v) :: m' else (k', v') :: set m' k v
  end.

Definition keys (m : list (string * V)) : list string := map fst m.

End Operations.

End Assoc.

(** ** JSON documents

    The value [JSON.parse] returns.  A number is kept as a decimal
    [mantissa * 10^exponent]. *)

Module Json.

#[local] Unset Elimination Schemes.
Inductive json :=
  | JNull
  | JBool (b : bool)
  | JNumber (mantissa exponent : Z)
  | JString (s : string)
  | JArray (items : list json)
  | JObject (members : list (string * json)).
#[local] Set Elimination Schemes.

Definition truthy (v : json) : bool :=
  match v with
  | JNull => false
  | JBool b => b
  | JNumber m _ => negb (m =? 0)
  | JString s => JS.truthy s
  | JArray _ | JObject _ => true
  end.

(** [v.k] for a key [k] that no prototype defines: the own member of an
    object (its keys are distinct once parsed), [undefined] ([None]) on
    anything else. *)
Definition member (v : json) (k : string) : option json :=
  match v with
  | JObject ms => Assoc.get ms k
  | _ => None
  end.

End Json.

(** ** Plain objects used as tables

    An object literal [{}] inherits from [Object.prototype]; a key that
    names one of its members is therefore never [undefined] when read.
    Enumeration ([for]-[in], [Object.keys], [Object.values]) lists the
    own keys that are array indices first, in ascending numeric order,
    and then the other keys in creation order. *)

Module Obj.

(** The members of [Object.prototype] that are functions. *)
Definition inherited_function (k : string) : bool :=
  bool_decide (k ∈ ["constructor"; "__defineGetter__"; "__defineSetter__";
                    "hasOwnProperty"; "__lookupGetter__"; "__lookupSetter__";
                    "isPrototypeOf"; "propertyIsEnumerable"; "toString";
                    "valueOf"; "toLocaleString"]).

(** All inherited names: the functions and the accessor [__proto__]. *)
Definition inherited (k : string) : bool :=
  inherited_function k || String.eqb k "__proto__".

(** What reading [o[k]] finds. *)
Inductive found (V : Type) :=
  | Own (v : V)      (* an own property *)
  | Inherited        (* a member of [Object.prototype]: a truthy object *)
  | Undefined.
Arguments Own {V} v.
Arguments Inherited {V}.
Arguments Undefined {V}.

Definition get {V : Type} (o : list (string * V)) (k : string) : found V :=
  match Assoc.get o k with
  | Some v => Own v
  | None => if inherited k then Inherited else Undefined
  end.

(** [o[k]++] on a table of numbers.  [undefined] and the inherited
    members convert to [NaN]; writing [__proto__] a number is ignored by
    its setter, writing any other inherited name creates an own
    property. *)
Definition increment (o : list (string * JS.number)) (k : string)
  : list (string * JS.number) :=
  match get o k with
  | Own v => Assoc.set o k (JS.succ v)
  | Undefined => Assoc.set o k JS.NaN
  | Inherited => if String.eqb k "__proto__" then o else Assoc.set o k JS.NaN
  end.

(** [if (!o[k]) o[k] = 0] on a table of numbers. *)
Definition init_zero (o : list (string * JS.number)) (k : string)
  : list (string * JS.number) :=
  match get o k with
  | Own v => if JS.truthy_number v then o else Assoc.set o k (JS.Num 0)
  | Undefined => Assoc.set o k (JS.Num 0)
  | Inherited => o
  end.

(** *** Enumeration order *)

Fixpoint all_digits (s : string) : bool :=
  match s with
  | EmptyString => true
  | String c s' =>
      match JS.digit_value 10 c with
      | Some _ => all_digits s'
      | None => false
      end
  end.

(** The array index a key denotes: a canonical decimal numeral (no
    leading zero, no sign) below [2^32 - 1]. *)
Definition array_index (k : string) : option Z :=
  match k with
  | EmptyString => None
  | String "0" EmptyString => Some 0
  | String "0" _ => None
  | _ =>
      if all_digits k then
        match JS.read_digits 10 None k with
        | Some n => if n <? 4294967295 then Some n else None
        | None => None
        end
      else None
  end.

Definition is_index (k : string) : bool :=
  match array_index k with Some _ => true | None => false end.

(** Ascending order of the index keys. *)
Definition index_le (a b : string) : Prop :=
  default 0 (array_index a) <= default 0 (array_index b).

#[export] Instance index_le_dec : RelDecision index_le.
Proof. intros a b. unfold index_le. apply _. Defined.

(** The order in which own keys are listed, given their creation order. *)
Definition key_order (ks : list string) : list string :=
  merge_sort index_le (List.filter is_index ks)
  ++ List.filter (fun k => negb (is_index k)) ks.

(** The own properties as [for]-[in] visits them: the keys in listing
    order, each with the value read under it.  ([Object.prototype] has
    no enumerable member, so the loop visits own keys only.) *)
Definition enumerate {V : Type} (o : list (string * V)) : list (string * V) :=
  omap (fun k => (fun v => (k, v)) <$> Assoc.get o k) (key_order (Assoc.keys o)).

Definition keys {V : Type} (o : list (string * V)) : list string :=
  map fst (enumerate o).

Definition values {V : Type} (o : list (string * V)) : list V :=
  map snd (enumerate o).

End Obj.

(** ** How a call ends *)

(** A call [Returns] a value or [Throws] a [TypeError].  It is [Host]
    when it reads or writes a property of one of the host's built-in
    objects, reached through an inherited key of a plain object: what the
    call does from there on depends on the state of the host and is not
    modelled.  A call that is [Host] may return, change a built-in object
    or throw; so only [Returns] and [Throws] say what the code does, and
    that a call is not [Throws] says nothing.  The built-in objects are
    taken as the host starts with them. *)
Inductive outcome (A : Type) :=
  | Returns (a : A)
  | Throws
  | Host.
Arguments Returns {A} a.
Arguments Throws {A}.
Arguments Host {A}.

#[export] Instance outcome_bind : MBind outcome :=
  fun A B f m =>
    match m with
    | Returns a => f a
    | Throws => Throws
    | Host => Host
    end.

(** A [for]-[of] loop whose body may end the call. *)
Fixpoint for_of {A S : Type} (body : S -> A -> outcome S) (s : S) (l : list A)
  : outcome S :=
  match l with
  | [] => Returns s
  | a :: l' => s' ← body s a; for_of body s' l'
  end.

(** ** Records, rows and filters *)

Module Data.

(** One incident, as built by the loader.  [lat] and [lng] keep the text
    handed to [parseFloat]: no index and no aggregate reads them. *)
Record incident := {
  lat : option string;
  lng : option string;
  date : string;
  type : string;
  category : string;
  targetCategory : string;
  target : string;
  forceType : string;
  city : string;
  province : string;
  time : string
}.

(** The object literal of the loader, for a row of the CSV parser (an
    object from column names to strings), given the date and the time
    the loader extracted from the row. *)
Definition make (row : gmap string string) (date_ time_ : string) : incident :=
  {| lat := row !! "mgrs_Y";
     lng := row !! "mgrs_X";
     date := date_;
     type := JS.or_else (row !! "Incident Type") "Unknown";
     category := JS.or_else (row !! "Incident Category") "N/A";
     targetCategory := JS.or_else (row !! "Target Category") "N/A";
     target := JS.or_else (row !! "target") "N/A";
     forceType := JS.or_else (row !! "force_type") "N/A";
     city := JS.or_else (row !! "City") "N/A";
     province := JS.or_else (row !! "Province") "N/A";
     time := time_ |}.

(** [row.date_time_occ || ''], and its parts around the spaces. *)
Definition dateTime (row : gmap string string) : string :=
  JS.or_else (row !! "date_time_occ") "".

Definition datePart (row : gmap string string) : string :=
  default "" (JS.split " " (dateTime row) !! 0%nat).

Definition timePart (row : gmap string string) : string :=
  JS.or_else (JS.split " " (dateTime row) !! 1%nat) "".

(** The update of the date index by the loader: the bucket of [key] is
    created when the key is new, and the record is pushed onto it. *)
Definition index_date (dateIndex : list (string * list incident))
    (key : string) (i : incident) : list (string * list incident) :=
  let dateIndex :=
    if Assoc.has dateIndex key then dateIndex else Assoc.set dateIndex key [] in
  match Assoc.get dateIndex key with
  | Some bucket => Assoc.set dateIndex key (bucket ++ [i])
  | None => dateIndex
  end.

End Data.

Module Filter.

(** The value of one filter: [undefined], a string, or an array or
    object (what the query parser gives for a repeated or bracketed
    parameter), which is truthy and [===] to no string. *)
Inductive value := Absent | Str (s : string) | Other.

Record filters := { type : value; category : value; province : value }.

(** The default argument [{}]. *)
Definition none : filters :=
  {| type := Absent; category := Absent; province := Absent |}.

(** [v && v !== 'all']. *)
Definition applies (v : value) : bool :=
  match v with
  | Absent => false
  | Str s => JS.truthy s && negb (String.eqb s "all")
  | Other => true
  end.

(** [x === v] for a string [x]. *)
Definition equals (v : value) (x : string) : bool :=
  match v with
  | Str s => String.eqb x s
  | _ => false
  end.

End Filter.

(** ** The queries

    The bodies of [getIncidents], [getMetadata], [getTreemapData] and
    [getRadarData] are the same text in both classes; they are written
    once, over the fields of [this] that they read. *)

Module Engine.
Import Data.

(** *** [getIncidents] *)

Definition getIncidents (dateIndex : list (string * list incident))
    (date_ : string) (f : Filter.filters) : list incident :=
  let incidents := default [] (Assoc.get dateIndex date_) in
  let incidents :=
    if Filter.applies (Filter.type f)
    then List.filter (fun i => Filter.equals (Filter.type f) (type i)) incidents
    else incidents in
  let incidents :=
    if Filter.applies (Filter.category f)
    then List.filter (fun i => Filter.equals (Filter.category f) (category i)) incidents
    else incidents in
  let incidents :=
    if Filter.applies (Filter.province f)
    then List.filter (fun i => Filter.equals (Filter.province f) (province i)) incidents
    else incidents in
  incidents.

(** *** [getMetadata] *)

Record metadata := {
  md_types : list string;
  md_categories : list string;
  md_provinces : list string
}.

Definition getMetadata (types categories provinces : list string) : metadata :=
  {| md_types := JS.sort types;
     md_categories := JS.sort categories;
     md_provinces := JS.sort provinces |}.

(** *** [getTreemapData] *)

(** One round of the two-level count:
    [if (!t[a]) t[a] = {}; if (!t[a][b]) t[a][b] = 0; t[a][b]++].
    When [a] is an inherited name, [t[a]] is a built-in object and the
    round goes on inside it.  It [Throws] where the round writes a
    read-only own property of a built-in function before it has changed
    anything: the [name] or [length] of any of them, and the [prototype]
    of [Object], in the strict code of a class body.  Every other round
    inside a built-in object is [Host]: it may change the built-in
    object, and it may throw as well (reading [caller] or [arguments],
    say); which of the two is not settled here. *)
Definition tally (t : list (string * list (string * JS.number)))
    (a b : string) : outcome (list (string * list (string * JS.number))) :=
  let t :=
    match Obj.get t a with
    | Obj.Undefined => Assoc.set t a []
    | _ => t
    end in
  match Obj.get t a with
  | Obj.Own o => Returns (Assoc.set t a (Obj.increment (Obj.init_zero o b) b))
  | Obj.Inherited =>
      if Obj.inherited_function a
         && (bool_decide (b ∈ ["name"; "length"])
             || String.eqb a "constructor" && String.eqb b "prototype")
      then Throws else Host
  | Obj.Undefined => Throws
  end.

Record point := { x : string; y : JS.number }.
Record group := { name : string; data : list point }.

(** The two [for]-[in] loops that turn the table into the chart series. *)
Definition series_of (t : list (string * list (string * JS.number)))
  : list group :=
  map (fun e => {| name := e.1;
                   data := map (fun c => {| x := c.1; y := c.2 |})
                               (Obj.enumerate e.2) |})
      (Obj.enumerate t).

Definition treemapData (allIncidents : list incident)
  : outcome (list (string * list (string * JS.number))) :=
  for_of (fun t i => tally t (type i) (category i)) [] allIncidents.

Definition getTreemapData (allIncidents : list incident)
  : outcome (list group) :=
  t ← treemapData allIncidents; Returns (series_of t).

(** *** [getRadarData] *)

Definition labels : list string :=
  [ "Early Night (00:00-03:59)";
    "Early Morning (04:00-08:59)";
    "Mid-Morning (09:00-11:59)";
    "Early Afternoon (12:00-14:59)";
    "Late Afternoon (15:00-17:59)";
    "Evening (18:00-21:59)";
    "Late Night (22:00-23:59)" ].

(** The object literal both histograms start from. *)
Definition radar_init : list (string * JS.number) :=
  map (fun l => (l, JS.Num 0)) labels.

(** The chain of [if]s that names the bucket of an hour; it leaves the
    empty string when no test holds. *)
Definition timeCategory (hour : JS.number) : string :=
  if JS.in_range hour 0 4 then "Early Night (00:00-03:59)"
  else if JS.in_range hour 4 9 then "Early Morning (04:00-08:59)"
  else if JS.in_range hour 9 12 then "Mid-Morning (09:00-11:59)"
  else if JS.in_range hour 12 15 then "Early Afternoon (12:00-14:59)"
  else if JS.in_range hour 15 18 then "Late Afternoon (15:00-17:59)"
  else if JS.in_range hour 18 22 then "Evening (18:00-21:59)"
  else if JS.in_range hour 22 24 then "Late Night (22:00-23:59)"
  else "".

(** [parseInt(incident.time.split(':')[0])]. *)
Definition hour (i : incident) : JS.number :=
  JS.parseInt (default "" (JS.split ":" (time i) !! 0%nat)).

Definition radar_step
    (s : list (string * JS.number) * list (string * JS.number))
    (i : incident) : list (string * JS.number) * list (string * JS.number) :=
  let '(radarDataEnemy, radarDataExplosive) := s in
  if negb (JS.truthy (time i)) then s
  else
    let timeCategory := timeCategory (hour i) in
    if String.eqb (type i) "Enemy Action"
    then (Obj.increment radarDataEnemy timeCategory, radarDataExplosive)
    else if String.eqb (type i) "Explosive Hazard"
    then (radarDataEnemy, Obj.increment radarDataExplosive timeCategory)
    else s.

Record histogram := { categories : list string; values : list JS.number }.
Record radar := { enemy : histogram; explosive : histogram }.

Definition histogram_of (o : list (string * JS.number)) : histogram :=
  {| categories := Obj.keys o; values := Obj.values o |}.

Definition getRadarData (allIncidents : list incident) : radar :=
  let '(radarDataEnemy, radarDataExplosive) :=
    foldl radar_step (radar_init, radar_init) allIncidents in
  {| enemy := histogram_of radarDataEnemy;
     explosive := histogram_of radarDataExplosive |}.

End Engine.

(** ** [src/data-processor.js] *)

Module DP.
Import Data.

Record t := {
  allIncidents : list incident;
  dateIndex : list (string * list incident);
  types : list string;
  categories : list string;
  provinces : list string;
  dates : list string;
  iraqBoundary : Json.json;
  isLoaded : bool
}.

Definition constructor : t :=
  {| allIncidents := [];
     dateIndex := [];
     types := [];
     categories := [];
     provinces := [];
     dates := [];
     iraqBoundary := Json.JNull;
     isLoaded := false |}.

(** The record built from a row: the date is the date part as it
    stands. *)
Definition incident_of (row : gmap string string) : incident :=
  make row (datePart row) (timePart row).

(** The handler of a ['data'] event.  [incidents] is the local array of
    [loadData]. *)
Definition on_data (s : list incident * t) (row : gmap string string)
  : list incident * t :=
  let '(incidents, this) := s in
  let incident := incident_of row in
  (incidents ++ [incident],
   {| allIncidents := allIncidents this;
      dateIndex := index_date (dateIndex this) (datePart row) incident;
      types := JS.set_add (types this) (type incident);
      categories := JS.set_add (categories this) (category incident);
      provinces := JS.set_add (provinces this) (province incident);
      dates := dates this;
      iraqBoundary := iraqBoundary this;
      isLoaded := isLoaded this |}).

Section Date.

(** The time value of [new Date(s)], or [NaN].  What a string that is not
    in the ISO format parses to, and in which time zone, is up to the
    host. *)
Variable Date_parse : string -> JS.number.

(** [(a, b) => new Date(a) - new Date(b)]. *)
Definition by_date (a b : string) : JS.number :=
  JS.sub (Date_parse a) (Date_parse b).

(** The handler of the ['end'] event.  [boundary] is the parsed boundary
    document, or [None] when no path was given or the file is missing. *)
Definition on_end (s : list incident * t) (boundary : option Json.json) : t :=
  let '(incidents, this) := s in
  {| allIncidents := incidents;
     dateIndex := dateIndex this;
     types := types this;
     categories := categories this;
     provinces := provinces this;
     dates := JS.sort_by by_date (Assoc.keys (dateIndex this));
     iraqBoundary := default (iraqBoundary this) boundary;
     isLoaded := true |}.

(** [loadData] on a stream that delivers [rows] and ends: the state in
    which the promise resolves.  (A stream error rejects it instead, and
    the server exits.) *)
Definition loadData (rows : list (gmap string string))
    (boundary : option Json.json) : t :=
  on_end (foldl on_data ([], constructor) rows) boundary.

End Date.

Definition getDates (this : t) : list string := dates this.

Definition getIncidents (this : t) (date_ : string) (f : Filter.filters)
  : list incident :=
  Engine.getIncidents (dateIndex this) date_ f.

Definition getMetadata (this : t) : Engine.metadata :=
  Engine.getMetadata (types this) (categories this) (provinces this).

Definition getTreemapData (this : t) : outcome (list Engine.group) :=
  Engine.getTreemapData (allIncidents this).

Definition getRadarData (this : t) : Engine.radar :=
  Engine.getRadarData (allIncidents this).

(** *** [getHeatmapData] *)

Record heatmap := { hm_dates : list string; hm_counts : list JS.number }.

(** [date.split('-')[0]]. *)
Definition year_of (d : string) : string :=
  default "" (JS.split "-" d !! 0%nat).

(** [o[d] = (o[d] || 0) + 1].  An inherited [o[d]] is a built-in object:
    the sum converts it to a string with the methods the host has for it
    at that time, or throws when the first loop has left it none that
    can be called.  That is [Host]: not settled here. *)
Definition count_date (o : list (string * JS.number)) (d : string)
  : outcome (list (string * JS.number)) :=
  match Obj.get o d with
  | Obj.Own v =>
      Returns (Assoc.set o d (JS.succ (if JS.truthy_number v then v else JS.Num 0)))
  | Obj.Undefined => Returns (Assoc.set o d (JS.Num 1))
  | Obj.Inherited => Host
  end.

(** [o[d] || 0]. *)
Definition read_count (o : list (string * JS.number)) (d : string)
  : outcome JS.number :=
  match Obj.get o d with
  | Obj.Own v => Returns (if JS.truthy_number v then v else JS.Num 0)
  | Obj.Undefined => Returns (JS.Num 0)
  | Obj.Inherited => Host
  end.

(** The per-year table is built and never read, and [getDayOfYear] is
    never called; the table is kept here because building it goes
    through plain objects. *)
Definition getHeatmapData (this : t) : outcome heatmap :=
  _ ← for_of (fun yearlyData i =>
                if negb (JS.truthy (date i)) then Returns yearlyData
                else Engine.tally yearlyData (year_of (date i)) (date i))
             [] (allIncidents this);
  let allDates :=
    JS.sort (List.filter JS.truthy (map date (allIncidents this))) in
  dateCounts ← for_of (fun dateCounts i =>
                if negb (JS.truthy (date i)) then Returns dateCounts
                else count_date dateCounts (date i))
             [] (allIncidents this);
  let uniqueDates := JS.sort (JS.unique allDates) in
  r ← for_of (fun (r : list string * list JS.number) d =>
                c ← read_count dateCounts d;
                Returns (r.1 ++ [d], r.2 ++ [c]))
             ([], []) uniqueDates;
  Returns {| hm_dates := r.1; hm_counts := r.2 |}.

Definition getBoundary (this : t) : Json.json := iraqBoundary this.

End DP.

(** ** The revised class (after [src/server.js]) *)

Module DP2.
Import Data.

Record t := {
  allIncidents : list incident;
  dateIndex : list (string * list incident);
  types : list string;
  categories : list string;
  provinces : list string;
  dates : list string;
  iraqBoundary : Json.json;
  heatmapData : Json.json;
  isLoaded : bool
}.

Definition constructor : t :=
  {| allIncidents := [];
     dateIndex := [];
     types := [];
     categories := [];
     provinces := [];
     dates := [];
     iraqBoundary := Json.JNull;
     heatmapData := Json.JNull;
     isLoaded := false |}.

(** "Convert M/D/YYYY to YYYY-MM-DD": only a date part with a slash that
    splits into exactly three parts is rewritten. *)
Definition formattedDate (datePart : string) : string :=
  if JS.includes "/" datePart then
    match JS.split "/" datePart with
    | [p0; p1; p2] =>
        let month := JS.padStart2 p0 in
        let day := JS.padStart2 p1 in
        let year := p2 in
        year +:+ "-" +:+ month +:+ "-" +:+ day
    | _ => datePart
    end
  else datePart.

(** The record built from a row, with the rewritten date. *)
Definition incident_of (row : gmap string string) : incident :=
  make row (formattedDate (datePart row)) (timePart row).

Definition on_data (s : list incident * t) (row : gmap string string)
  : list incident * t :=
  let '(incidents, this) := s in
  let formattedDate := formattedDate (datePart row) in
  let incident := incident_of row in
  (incidents ++ [incident],
   {| allIncidents := allIncidents this;
      dateIndex := index_date (dateIndex this) formattedDate incident;
      types := JS.set_add (types this) (type incident);
      categories := JS.set_add (categories this) (category incident);
      provinces := JS.set_add (provinces this) (province incident);
      dates := dates this;
      iraqBoundary := iraqBoundary this;
      heatmapData := heatmapData this;
      isLoaded := isLoaded this |}).

(** The ['end'] handler: "Sort dates as strings (YYYY-MM-DD format sorts
    correctly)".  [heatmap] is the parsed heat-map document, or [None]
    when no path was given or the file is missing. *)
Definition on_end (s : list incident * t)
    (boundary heatmap : option Json.json) : t :=
  let '(incidents, this) := s in
  {| allIncidents := incidents;
     dateIndex := dateIndex this;
     types := types this;
     categories := categories this;
     provinces := provinces this;
     dates := JS.sort (Assoc.keys (dateIndex this));
     iraqBoundary := default (iraqBoundary this) boundary;
     heatmapData := default (heatmapData this) heatmap;
     isLoaded := true |}.

Definition loadData (rows : list (gmap string string))
    (boundary heatmap : option Json.json) : t :=
  on_end (foldl on_data ([], constructor) rows) boundary heatmap.

Definition getDates (this : t) : list string := dates this.

Definition getIncidents (this : t) (date_ : string) (f : Filter.filters)
  : list incident :=
  Engine.getIncidents (dateIndex this) date_ f.

Definition getMetadata (this : t) : Engine.metadata :=
  Engine.getMetadata (types this) (categories this) (provinces this).

(** Here the series is returned wrapped in an object. *)
Record treemap := { series : list Engine.group }.

Definition getTreemapData (this : t) : outcome treemap :=
  s ← Engine.getTreemapData (allIncidents this); Returns {| series := s |}.

Definition getRadarData (this : t) : Engine.radar :=
  Engine.getRadarData (allIncidents this).

(** The heat map is the loaded document's, or empty: the records are not
    counted.  [None] stands for [undefined]. *)
Record heatmap := {
  hm_dates : option Json.json;
  hm_counts : option Json.json
}.

Definition getHeatmapData (this : t) : heatmap :=
  if Json.truthy (heatmapData this) then
    {| hm_dates := Json.member (heatmapData this) "dates";
       hm_counts := Json.member (heatmapData this) "counts" |}
  else
    {| hm_dates := Some (Json.JArray []); hm_counts := Some (Json.JArray []) |}.

Definition getBoundary (this : t) : Json.json := iraqBoundary this.

End DP2.

(** ** The notions of the specification *)

Module Spec.
Import Data.

Definition is_digit (c : ascii) : bool :=
  match JS.digit_value 10 c with Some _ => true | None => false end.

(** [YYYY-MM-DD]: digit groups of four, two and two. *)
Definition is_ymd (s : string) : bool :=
  match s with
  | String y1 (String y2 (String y3 (String y4 (String s1
      (String m1 (String m2 (String s2
        (String d1 (String d2 EmptyString))))))))) =>
      is_digit y1 && is_digit y2 && is_digit y3 && is_digit y4
      && Ascii.eqb s1 "-" && is_digit m1 && is_digit m2
      && Ascii.eqb s2 "-" && is_digit d1 && is_digit d2
  | _ => false
  end.

(** One or two digits. *)
Definition is_short (s : string) : bool :=
  match s with
  | String a EmptyString => is_digit a
  | String a (String b EmptyString) => is_digit a && is_digit b
  | _ => false
  end.

(** Four digits. *)
Definition is_year (s : string) : bool :=
  match s with
  | String a (String b (String c (String d EmptyString))) =>
      is_digit a && is_digit b && is_digit c && is_digit d
  | _ => false
  end.

(** [M/D/YYYY], month and day not padded. *)
Definition is_mdy (s : string) : bool :=
  match JS.split "/" s with
  | [m; d; y] => is_short m && is_short d && is_year y
  | _ => false
  end.

(** The number a non-empty string of digits denotes. *)
Definition numeral (s : string) : option Z :=
  if Obj.all_digits s then JS.read_digits 10 None s else None.

(** The calendar day a date string denotes, as (year, month, day): read
    as [M/D/Y] when it has a slash and as [Y-M-D] otherwise, whatever
    the width of the groups. *)
Definition calendar (s : string) : option (Z * Z * Z) :=
  let parts :=
    if JS.includes "/" s then
      match JS.split "/" s with
      | [m; d; y] => Some (y, m, d)
      | _ => None
      end
    else
      match JS.split "-" s with
      | [y; m; d] => Some (y, m, d)
      | _ => None
      end in
  match parts with
  | Some (y, m, d) =>
      match numeral y, numeral m, numeral d with
      | Some y, Some m, Some d => Some (y, m, d)
      | _, _, _ => None
      end
  | None => None
  end.

Definition day_lt (a b : Z * Z * Z) : bool :=
  let '(y1, m1, d1) := a in
  let '(y2, m2, d2) := b in
  (y1 <? y2) || ((y1 =? y2) && ((m1 <? m2) || ((m1 =? m2) && (d1 <? d2)))).

(** [a] denotes an earlier calendar day than [b]. *)
Definition before (a b : string) : bool :=
  match calendar a, calendar b with
  | Some x, Some y => day_lt x y
  | _, _ => false
  end.

(** Strictly ascending by calendar value, and in string order. *)
Definition ascending_by_calendar (l : list string) : Prop :=
  StronglySorted (fun a b => before a b = true) l.

Definition string_lt (a b : string) : Prop := String.compare a b = Lt.

Definition ascending_as_strings (l : list string) : Prop :=
  StronglySorted string_lt l.

(** A string the host's [Date] reads as a valid date, and ascending
    order by the time value it gives. *)
Definition valid_date (P : string -> JS.number) (d : string) : Prop :=
  P d <> JS.NaN.

Definition time_le (P : string -> JS.number) (a b : string) : Prop :=
  match P a, P b with
  | JS.Num x, JS.Num y => x <= y
  | _, _ => False
  end.

Definition ascending_by_time (P : string -> JS.number) (l : list string) : Prop :=
  StronglySorted (time_le P) l.

(** How many records satisfy [p]. *)
Definition count (p : incident -> bool) (l : list incident) : Z :=
  Z.of_nat (length (List.filter p l)).

(** The record is of date [d]; the record has a date. *)
Definition on_date (d : string) (i : incident) : bool := String.eqb (date i) d.

Definition has_date (i : incident) : bool := JS.truthy (date i).

(** Neither the type nor the category of the record names a member of
    [Object.prototype]. *)
Definition plain (i : incident) : Prop :=
  Obj.inherited (type i) = false /\ Obj.inherited (category i) = false.

(** The sum of a sequence of numbers. *)
Definition total (l : list JS.number) : JS.number :=
  foldr JS.add (JS.Num 0) l.

(** *** Filters *)

(** A filter is left out, as the specification words it: when its value
    is absent or is ["all"]. *)
Definition left_out_as_stated (v : Filter.value) : bool :=
  match v with
  | Filter.Absent => true
  | Filter.Str s => String.eqb s "all"
  | Filter.Other => false
  end.

(** A filter is left out, as the code has it: when its value is absent,
    empty or ["all"]. *)
Definition left_out (v : Filter.value) : bool :=
  match v with
  | Filter.Absent => true
  | Filter.Str s => String.eqb s "" || String.eqb s "all"
  | Filter.Other => false
  end.

(** The conjunction of the equality filters that are not left out. *)
Definition narrows (out : Filter.value -> bool) (f : Filter.filters)
    (i : incident) : bool :=
  (out (Filter.type f) || Filter.equals (Filter.type f) (type i))
  && (out (Filter.category f) || Filter.equals (Filter.category f) (category i))
  && (out (Filter.province f) || Filter.equals (Filter.province f) (province i)).

(** *** Time-of-day buckets *)

Definition buckets : list (Z * Z) :=
  [(0, 4); (4, 9); (9, 12); (12, 15); (15, 18); (18, 22); (22, 24)].

(** The record counts for the histogram of [ty] in the bucket [b]. *)
Definition in_bucket (ty : string) (b : Z * Z) (i : incident) : bool :=
  JS.truthy (time i) && String.eqb (type i) ty
  && JS.in_range (Engine.hour i) b.1 b.2.

(** The count a histogram shows under a label. *)
Definition value_at (h : Engine.histogram) (l : string) : option JS.number :=
  Assoc.get (zip (Engine.categories h) (Engine.values h)) l.

(** The counts under the seven labels, in the fixed order, and their
    sum. *)
Definition seven (h : Engine.histogram) : list (option JS.number) :=
  map (value_at h) Engine.labels.

Definition seven_total (h : Engine.histogram) : JS.number :=
  total (omap (value_at h) Engine.labels).

(** The record has a time and one of the two types of the radar. *)
Definition on_radar (i : incident) : bool :=
  JS.truthy (time i)
  && (String.eqb (type i) "Enemy Action" || String.eqb (type i) "Explosive Hazard").

(** *** The tree map *)

Definition type_is (t : string) (i : incident) : bool := String.eqb (type i) t.

Definition pair_is (t c : string) (i : incident) : bool :=
  String.eqb (type i) t && String.eqb (category i) c.

(** The series of the two-level count, with the groups and the pairs
    of each group in a given order of their first-seen keys. *)
Definition treemap_by (order : list string -> list string)
    (all : list incident) : list Engine.group :=
  map (fun t =>
         {| Engine.name := t;
            Engine.data :=
              map (fun c => {| Engine.x := c;
                               Engine.y := JS.Num (count (pair_is t c) all) |})
                  (order (JS.unique (map category (List.filter (type_is t) all)))) |})
      (order (JS.unique (map type all))).

(** In first-seen order, as the specification words it, and in the
    listing order of a plain object, as the code has it. *)
Definition treemap_first_seen : list incident -> list Engine.group :=
  treemap_by (fun ks => ks).

Definition treemap : list incident -> list Engine.group :=
  treemap_by Obj.key_order.

(** All the counts of a series. *)
Definition counts_of (s : list Engine.group) : list JS.number :=
  concat (map (fun g => map Engine.y (Engine.data g)) s).

End Spec.

(** ** A host for [Date]

    The one reading of a date string that the language fixes:
    [YYYY-MM-DD], with a month and a day that exist, is midnight UTC of
    that day, in milliseconds since 1970-01-01.  Every other string,
    which the language leaves to the host, is an invalid date here. *)

Module HostDate.

Definition is_leap (y : Z) : bool :=
  ((y mod 4 =? 0) && negb (y mod 100 =? 0)) || (y mod 400 =? 0).

Definition days_in_month (y m : Z) : Z :=
  if m =? 2 then (if is_leap y then 29 else 28)
  else if (m =? 4) || (m =? 6) || (m =? 9) || (m =? 11) then 30
  else 31.

(** Days from 1970-01-01 to a day of the Gregorian calendar. *)
Definition days_from_civil (y m d : Z) : Z :=
  let y := if m <=? 2 then y - 1 else y in
  let era := y / 400 in
  let yoe := y - era * 400 in
  let mp := (m + 9) mod 12 in
  let doy := (153 * mp + 2) / 5 + d - 1 in
  let doe := yoe * 365 + yoe / 4 - yoe / 100 + doy in
  era * 146097 + doe - 719468.

Definition iso_date (s : string) : JS.number :=
  if Spec.is_ymd s then
    match Spec.calendar s with
    | Some (y, m, d) =>
        if (1 <=? m) && (m <=? 12) && (1 <=? d) && (d <=? days_in_month y m)
        then JS.Num (86400000 * days_from_civil y m d)
        else JS.NaN
    | None => JS.NaN
    end
  else JS.NaN.

End HostDate.

(** ** [loadData] on an instance that has loaded before

    [loadData] starts a fresh local array but fills the fields of [this]
    as it finds them: the module exports one instance, and nothing
    resets its date index or its sets. *)

Module Reload.
Import Data.

Definition loadData (Date_parse : string -> JS.number) (this : DP.t)
    (rows : list (gmap string string)) (boundary : option Json.json) : DP.t :=
  DP.on_end Date_parse (foldl DP.on_data ([], this) rows) boundary.

End Reload.

(** ** [src/server.js]

    The routing itself is Express's.  A request is taken as the route it
    matches, with the [:date] parameter and the three query values the
    handler reads; [Unrouted] is any request that matches no route.  The
    greeting of the root route is kept as its UTF-8 text. *)

Module Server.
Import Data.

Inductive request :=
  | Root
  | ApiDates
  | ApiMetadata
  | ApiIncidents (date : string) (type category province : Filter.value)
  | ApiTreemap
  | ApiRadar
  | ApiHeatmap
  | ApiBoundary
  | Unrouted.

(** The objects handed to [res.json]. *)
Inductive payload :=
  | Health (message status : string) (endpoints : list string)
  | Error (error : string)
  | Dates (dates : list string)
  | Metadata (metadata : Engine.metadata)
  | Incidents (date : string) (count : nat) (incidents : list incident)
  | Series (series : list Engine.group)
  | Radar (data : Engine.radar)
  | Heatmap (data : DP.heatmap)
  | Boundary (boundary : Json.json).

Record response := { status : Z; body : payload }.

(** [res.json(x)], with the default status. *)
Definition json (x : payload) : response := {| status := 200; body := x |}.

(** The module state: the flag and the processor instance. *)
Record t := { dataLoaded : bool; dataProcessor : DP.t }.

(** The middleware: answers by itself until the data is loaded, and
    calls [next] afterwards. *)
Definition ensureDataLoaded (s : t) (next : outcome response) : outcome response :=
  if negb (dataLoaded s) then
    Returns {| status := 503;
               body := Error "Server is still loading data. Please try again in a moment." |}
  else next.

(** [try { ... res.json(ok(x)) } catch (error) { res.status(500).json(...) }]
    around a query. *)
Definition try_catch {A : Type} (query : outcome A) (ok : A -> payload)
    (failed : string) : outcome response :=
  match query with
  | Returns a => Returns (json (ok a))
  | Throws => Returns {| status := 500; body := Error failed |}
  | Host => Host
  end.

Definition endpoints : list string :=
  [ "GET /api/dates";
    "GET /api/metadata";
    "GET /api/incidents/:date";
    "GET /api/dashboard/treemap";
    "GET /api/dashboard/radar";
    "GET /api/dashboard/heatmap";
    "GET /api/boundary" ].

(** The answer to a request. *)
Definition handle (s : t) (r : request) : outcome response :=
  let dataProcessor := dataProcessor s in
  match r with
  | Root =>
      Returns (json (Health "🚀 Iraq SIGACTS API Server is running!"
                            (if dataLoaded s then "ready" else "loading")
                            endpoints))
  | ApiDates =>
      ensureDataLoaded s
        (try_catch (Returns (DP.getDates dataProcessor)) Dates
                   "Failed to fetch dates")
  | ApiMetadata =>
      ensureDataLoaded s
        (try_catch (Returns (DP.getMetadata dataProcessor)) Metadata
                   "Failed to fetch metadata")
  | ApiIncidents date type category province =>
      ensureDataLoaded s
        (let filters := {| Filter.type := type;
                           Filter.category := category;
                           Filter.province := province |} in
         try_catch (Returns (DP.getIncidents dataProcessor date filters))
                   (fun incidents => Incidents date (length incidents) incidents)
                   "Failed to fetch incidents")
  | ApiTreemap =>
      ensureDataLoaded s
        (try_catch (DP.getTreemapData dataProcessor) Series
                   "Failed to generate treemap data")
  | ApiRadar =>
      ensureDataLoaded s
        (try_catch (Returns (DP.getRadarData dataProcessor)) Radar
                   "Failed to generate radar data")
  | ApiHeatmap =>
      ensureDataLoaded s
        (try_catch (DP.getHeatmapData dataProcessor) Heatmap
                   "Failed to generate heatmap data")
  | ApiBoundary =>
      ensureDataLoaded s
        (let boundary := DP.getBoundary dataProcessor in
         if negb (Json.truthy boundary) then
           Returns {| status := 404; body := Error "Boundary data not found" |}
         else try_catch (Returns boundary) Boundary "Failed to fetch boundary")
  | Unrouted =>
      Returns {| status := 404; body := Error "Endpoint not found" |}
  end.

(** *** Start-up *)

(** What the CSV stream does: it delivers rows and ends, or it fails
    after some rows.  With it comes the parsed boundary document, if the
    file exists. *)
Inductive source :=
  | Ends (rows : list (gmap string string)) (boundary : option Json.json)
  | Fails (rows : list (gmap string string)).

Inductive phase := Listening | Exited (code : Z).

Section Date.
Variable Date_parse : string -> JS.number.

(** [startServer]: [initializeData] awaits [loadData] and sets the flag,
    or leaves the process with code 1 when the promise is rejected; only
    then [app.listen] is called. *)
Definition startServer (src : source) : phase * t :=
  match src with
  | Ends rows boundary =>
      (Listening,
       {| dataLoaded := true;
          dataProcessor := DP.loadData Date_parse rows boundary |})
  | Fails rows =>
      (Exited 1,
       {| dataLoaded := false;
          dataProcessor := (foldl DP.on_data ([], DP.constructor) rows).2 |})
  end.

End Date.

End Server.

(** ** Notions for the further properties *)

Module Notions.
Import Data.

(** A filter object cut down to one of its three filters. *)
Definition only_type (f : Filter.filters) : Filter.filters :=
  {| Filter.type := Filter.type f;
     Filter.category := Filter.Absent;
     Filter.province := Filter.Absent |}.

Definition only_category (f : Filter.filters) : Filter.filters :=
  {| Filter.type := Filter.Absent;
     Filter.category := Filter.category f;
     Filter.province := Filter.Absent |}.

Definition only_province (f : Filter.filters) : Filter.filters :=
  {| Filter.type := Filter.Absent;
     Filter.category := Filter.Absent;
     Filter.province := Filter.province f |}.

(** Two records that differ in the date at most, as the two loaders build
    them from one row. *)
Definition alike (i j : incident) : Prop :=
  type i = type j /\ category i = category j /\ province i = province j
  /\ time i = time j.

End Notions.

(** * Part II: views used by the proofs *)

Module Views.
Import Data.

(** A table with distinct keys, as its key list and the function that
    gives the value under each key; [upd] changes one value. *)
Definition tab {V : Type} (ks : list string) (f : string -> V)
  : list (string * V) :=
  map (fun k => (k, f k)) ks.

Definition upd {V : Type} (f : string -> V) (k : string) (v : V)
  : string -> V :=
  fun k' => if String.eqb k' k then v else f k'.

(** The records of one date, in source order. *)
Definition bucket_of (incs : list incident) (d : string) : list incident :=
  List.filter (fun i => String.eqb (date i) d) incs.

(** The date index over a list of records. *)
Definition index_of (incs : list incident) : list (string * list incident) :=
  tab (JS.unique (map date incs)) (bucket_of incs).

(** The state of either class while [loadData] reads the rows. *)
Definition dp_loading (incs : list incident) : DP.t :=
  {| DP.allIncidents := [];
     DP.dateIndex := index_of incs;
     DP.types := JS.unique (map type incs);
     DP.categories := JS.unique (map category incs);
     DP.provinces := JS.unique (map province incs);
     DP.dates := [];
     DP.iraqBoundary := Json.JNull;
     DP.isLoaded := false |}.

Definition dp2_loading (incs : list incident) : DP2.t :=
  {| DP2.allIncidents := [];
     DP2.dateIndex := index_of incs;
     DP2.types := JS.unique (map type incs);
     DP2.categories := JS.unique (map category incs);
     DP2.provinces := JS.unique (map province incs);
     DP2.dates := [];
     DP2.iraqBoundary := Json.JNull;
     DP2.heatmapData := Json.JNull;
     DP2.isLoaded := false |}.

(** A histogram table: the seven counts and whether the empty key has
    been written. *)
Definition table (c0 c1 c2 c3 c4 c5 c6 : Z) (e : bool)
  : list (string * JS.number) :=
  [ ("Early Night (00:00-03:59)", JS.Num c0);
    ("Early Morning (04:00-08:59)", JS.Num c1);
    ("Mid-Morning (09:00-11:59)", JS.Num c2);
    ("Early Afternoon (12:00-14:59)", JS.Num c3);
    ("Late Afternoon (15:00-17:59)", JS.Num c4);
    ("Evening (18:00-21:59)", JS.Num c5);
    ("Late Night (22:00-23:59)", JS.Num c6) ]
  ++ (if e then [("", JS.NaN)] else []).

(** What one record adds to one histogram. *)
Definition hist_step (ty : string) (t : list (string * JS.number))
    (i : incident) : list (string * JS.number) :=
  if JS.truthy (time i) && String.eqb (type i) ty
  then Obj.increment t (Engine.timeCategory (Engine.hour i))
  else t.

(** A record of the histogram whose hour is in no bucket. *)
Definition stray (ty : string) (i : incident) : bool :=
  JS.truthy (time i) && String.eqb (type i) ty
  && negb (JS.in_range (Engine.hour i) 0 24).

Definition one (b : bool) : Z := if b then 1 else 0.

(** A record of the histogram whose hour is from 0 to 23. *)
Definition in_day (ty : string) (i : incident) : bool :=
  JS.truthy (time i) && String.eqb (type i) ty
  && JS.in_range (Engine.hour i) 0 24.

(** The non-empty dates in first-seen order, and the table of counts
    over the records seen so far. *)
Definition seen (l : list incident) : list string :=
  JS.unique (List.filter JS.truthy (map date l)).

Definition counts (l : list incident) : list (string * JS.number) :=
  tab (seen l) (fun d => JS.Num (Spec.count (Spec.on_date d) l)).

(** The dates of the heat map. *)
Definition heat_dates (l : list incident) : list string :=
  JS.sort (JS.unique (JS.sort (List.filter JS.truthy (map date l)))).

(** The categories seen under a type, and the table over the records
    seen so far. *)
Definition cats (t : string) (l : list incident) : list string :=
  JS.unique (map category (List.filter (Spec.type_is t) l)).

Definition inner (l : list incident) (t : string) : list (string * JS.number) :=
  tab (cats t l) (fun c => JS.Num (Spec.count (Spec.pair_is t c) l)).

Definition outer (l : list incident) : list (string * list (string * JS.number)) :=
  tab (JS.unique (map type l)) (inner l).

End Views.

(** * Part III: facts *)

(** ** Strings and arrays *)

Module JSFacts.

Example split_timestamp :
  JS.split " " "12/5/2007 10:30:00" = ["12/5/2007"; "10:30:00"].
Proof. reflexivity. Qed.

Example split_nothing : JS.split " " "" = [""].
Proof. reflexivity. Qed.

Example parseInt_hour : JS.parseInt "07" = JS.Num 7.
Proof. reflexivity. Qed.

Example parseInt_prefix : JS.parseInt " 12abc" = JS.Num 12.
Proof. reflexivity. Qed.

Example parseInt_hex : JS.parseInt "0x1f" = JS.Num 31.
Proof. reflexivity. Qed.

Example parseInt_text : JS.parseInt "noon" = JS.NaN.
Proof. reflexivity. Qed.

Example formattedDate_slashes : DP2.formattedDate "12/5/2007" = "2007-12-05".
Proof. reflexivity. Qed.

Example key_order_indices :
  Obj.key_order ["b"; "2"; "a"; "1"; "01"] = ["1"; "2"; "b"; "a"; "01"].
Proof. vm_compute. reflexivity. Qed.

Example sort_strings :
  JS.sort ["2/1/2007"; "12/5/2007"; "2008-01-02"]
  = ["12/5/2007"; "2/1/2007"; "2008-01-02"].
Proof. vm_compute. reflexivity. Qed.

Lemma split_cons sep s : exists p ps, JS.split sep s = p :: ps.
Proof.
  induction s as [|c s IH]; simpl; [by eauto|].
  destruct (Ascii.eqb c sep); [by eauto|].
  destruct IH as (p & ps & ->). eauto.
Qed.

Lemma split_first sep s : is_Some (JS.split sep s !! 0%nat).
Proof. destruct (split_cons sep s) as (p & ps & ->). by eexists. Qed.

Lemma split_without sep s :
  JS.includes sep s = false -> JS.split sep s = [s].
Proof.
  induction s as [|c s IH]; simpl; [done|].
  intros [Hc Hs]%orb_false_iff. rewrite Hc, (IH Hs). done.
Qed.

Lemma split_several sep s p q l :
  JS.split sep s = p :: q :: l -> JS.includes sep s = true.
Proof.
  intros H. destruct (JS.includes sep s) eqn:E; [done|].
  rewrite (split_without _ _ E) in H. discriminate.
Qed.

Lemma eqb_decide (a b : string) : String.eqb a b = bool_decide (a = b).
Proof.
  destruct (String.eqb_spec a b).
  - by rewrite bool_decide_eq_true_2.
  - by rewrite bool_decide_eq_false_2.
Qed.

(** [unique] keeps exactly the elements, once each, in first-seen order. *)
Lemma unique_snoc l x : JS.unique (l ++ [x]) = JS.set_add (JS.unique l) x.
Proof. unfold JS.unique. by rewrite foldl_app. Qed.

Lemma unique_map_snoc {A} (f : A -> string) l x :
  JS.unique (map f (l ++ [x])) = JS.set_add (JS.unique (map f l)) (f x).
Proof. rewrite map_app. apply unique_snoc. Qed.

Lemma elem_of_set_add s x y : y ∈ JS.set_add s x <-> y ∈ s \/ y = x.
Proof.
  unfold JS.set_add. destruct (bool_decide (x ∈ s)) eqn:E.
  - apply bool_decide_eq_true in E. split; [by left|by intros [?| ->]].
  - rewrite elem_of_app, list_elem_of_singleton. done.
Qed.

Lemma NoDup_set_add s x : NoDup s -> NoDup (JS.set_add s x).
Proof.
  intros Hs. unfold JS.set_add. destruct (bool_decide (x ∈ s)) eqn:E; [done|].
  apply bool_decide_eq_false in E. apply NoDup_app. split_and!; [done| |apply NoDup_singleton].
  intros y Hy ->%list_elem_of_singleton. done.
Qed.

Lemma elem_of_unique l x : x ∈ JS.unique l <-> x ∈ l.
Proof.
  induction l as [|y l IH] using rev_ind; [done|].
  rewrite unique_snoc, elem_of_set_add, IH, elem_of_app, list_elem_of_singleton.
  done.
Qed.

Lemma NoDup_unique l : NoDup (JS.unique l).
Proof.
  induction l as [|y l IH] using rev_ind; [constructor|].
  rewrite unique_snoc. by apply NoDup_set_add.
Qed.

(** The default [sort]. *)
Lemma sort_Permutation l : JS.sort l ≡ₚ l.
Proof. apply merge_sort_Permutation. Qed.

Lemma elem_of_sort l x : x ∈ JS.sort l <-> x ∈ l.
Proof. by rewrite sort_Permutation. Qed.

Lemma NoDup_sort l : NoDup l -> NoDup (JS.sort l).
Proof. by rewrite sort_Permutation. Qed.

Lemma sort_sorted l : StronglySorted String.le (JS.sort l).
Proof. apply (StronglySorted_merge_sort String.le). Qed.

Lemma le_lt a b : String.le a b -> a <> b -> Spec.string_lt a b.
Proof.
  unfold String.le, String.leb, Spec.string_lt. intros Hle Hne.
  destruct (String.compare a b) eqn:E; [|done|done].
  by apply String.compare_eq_iff in E.
Qed.

Lemma sorted_strict l :
  NoDup l -> StronglySorted String.le l -> Spec.ascending_as_strings l.
Proof.
  unfold Spec.ascending_as_strings.
  induction 2 as [|x l Hs IH Hx]; [constructor|].
  apply NoDup_cons in H as [Hnin Hnd]. constructor; [by apply IH|].
  apply Forall_forall. intros y Hy.
  apply le_lt; [by eapply Forall_forall in Hx|]. intros ->. done.
Qed.

Lemma sort_ascending l : NoDup l -> Spec.ascending_as_strings (JS.sort l).
Proof. intros. apply sorted_strict; [by apply NoDup_sort|apply sort_sorted]. Qed.

(** [sort] with a comparator. *)
Lemma insert_by_Permutation cmp x l : JS.insert_by cmp x l ≡ₚ x :: l.
Proof.
  induction l as [|y l IH]; simpl; [done|].
  destruct (_ <=? _); [done|]. rewrite IH. apply Permutation_swap.
Qed.

Lemma sort_by_Permutation cmp l : JS.sort_by cmp l ≡ₚ l.
Proof.
  induction l as [|x l IH]; simpl; [done|].
  by rewrite insert_by_Permutation, IH.
Qed.

End JSFacts.

(** ** Tables

    A table with distinct keys is its key list and a function that
    gives the value under each key. *)

Module Table.
Import Views.

Section Table.
Context {V : Type}.
Implicit Types (f g : string -> V) (v : V).

Lemma upd_same f k v : upd f k v k = v.
Proof. unfold upd. by rewrite String.eqb_refl. Qed.

Lemma upd_other f k v k' : k' <> k -> upd f k v k' = f k'.
Proof. unfold upd. intros H. by apply String.eqb_neq in H as ->. Qed.

Lemma keys_tab ks f : Assoc.keys (tab ks f) = ks.
Proof.
  unfold Assoc.keys, tab. rewrite map_map. simpl. apply map_id.
Qed.

Lemma tab_ext ks f g : (forall k, k ∈ ks -> f k = g k) -> tab ks f = tab ks g.
Proof.
  intros H. unfold tab. apply map_ext_in. intros k Hk.
  rewrite H; [done|]. by apply list_elem_of_In.
Qed.

Lemma tab_snoc ks k f : tab (ks ++ [k]) f = tab ks f ++ [(k, f k)].
Proof. unfold tab. by rewrite map_app. Qed.

Lemma get_tab_in ks f k : k ∈ ks -> Assoc.get (tab ks f) k = Some (f k).
Proof.
  induction ks as [|k0 ks IH]; [by intros ?%elem_of_nil|]. simpl.
  destruct (String.eqb_spec k0 k) as [->|Hne]; [done|].
  intros [?|?]%elem_of_cons; [congruence|by apply IH].
Qed.

Lemma get_tab_notin ks f k : k ∉ ks -> Assoc.get (tab ks f) k = None.
Proof.
  induction ks as [|k0 ks IH]; [done|]. simpl.
  intros [Hne Hnin]%not_elem_of_cons.
  destruct (String.eqb_spec k0 k) as [->|_]; [done|by apply IH].
Qed.

Lemma get_tab_Some ks f k v : Assoc.get (tab ks f) k = Some v -> k ∈ ks /\ v = f k.
Proof.
  destruct (decide (k ∈ ks)) as [Hin|Hnin].
  - rewrite (get_tab_in _ _ _ Hin). by intros [= <-].
  - by rewrite (get_tab_notin _ _ _ Hnin).
Qed.

Lemma set_tab ks f k v :
  NoDup ks -> Assoc.set (tab ks f) k v = tab (JS.set_add ks k) (upd f k v).
Proof.
  unfold JS.set_add. induction 1 as [|k0 ks Hnin Hnd IH]; simpl.
  - by rewrite upd_same.
  - destruct (String.eqb_spec k0 k) as [->|Hne].
    + rewrite bool_decide_eq_true_2 by apply list_elem_of_here.
      simpl. rewrite upd_same. f_equal. apply tab_ext.
      intros k' Hk'. rewrite upd_other; [done|]. by intros ->.
    + rewrite IH. destruct (decide (k ∈ ks)) as [Hin|Hin'].
      * rewrite !bool_decide_eq_true_2; [|by apply list_elem_of_further|done].
        simpl. by rewrite (upd_other _ _ _ _ Hne).
      * rewrite !bool_decide_eq_false_2; [|by intros [?|?]%elem_of_cons|done].
        simpl. by rewrite (upd_other _ _ _ _ Hne).
Qed.

Lemma has_tab ks (f : string -> V) k : Assoc.has (tab ks f) k = bool_decide (k ∈ ks).
Proof.
  unfold Assoc.has. destruct (decide (k ∈ ks)) as [Hin|Hnin].
  - by rewrite (get_tab_in _ _ _ Hin), bool_decide_eq_true_2.
  - by rewrite (get_tab_notin _ _ _ Hnin), bool_decide_eq_false_2.
Qed.

(** Reading a plain object. *)
Lemma obj_get_in ks f k : k ∈ ks -> Obj.get (tab ks f) k = Obj.Own (f k).
Proof. intros H. unfold Obj.get. by rewrite (get_tab_in _ _ _ H). Qed.

Lemma obj_get_notin ks f k :
  k ∉ ks -> Obj.inherited k = false -> Obj.get (tab ks f) k = Obj.Undefined.
Proof. intros H Hi. unfold Obj.get. by rewrite (get_tab_notin _ _ _ H), Hi. Qed.

End Table.

(** Listing order. *)
Lemma filter_split {A} (p : A -> bool) l :
  List.filter p l ++ List.filter (fun x => negb (p x)) l ≡ₚ l.
Proof.
  induction l as [|x l IH]; simpl; [done|].
  destruct (p x); simpl.
  - by rewrite IH.
  - rewrite <- Permutation_middle. by rewrite IH.
Qed.

Lemma key_order_Permutation ks : Obj.key_order ks ≡ₚ ks.
Proof.
  unfold Obj.key_order. rewrite merge_sort_Permutation. apply filter_split.
Qed.

Lemma key_order_plain ks :
  Forall (fun k => Obj.is_index k = false) ks -> Obj.key_order ks = ks.
Proof.
  intros H. unfold Obj.key_order.
  assert (List.filter Obj.is_index ks = []) as ->.
  { induction H as [|k ks Hk _ IH]; simpl; [done|]. by rewrite Hk. }
  assert (List.filter (fun k => negb (Obj.is_index k)) ks = ks) as ->; [|done].
  induction H as [|k ks Hk _ IH]; simpl; [done|]. rewrite Hk. simpl. by f_equal.
Qed.

Lemma omap_total {A B} (g : A -> option B) (h : A -> B) l :
  (forall a, a ∈ l -> g a = Some (h a)) -> omap g l = map h l.
Proof.
  induction l as [|a l IH]; intros H; simpl; [done|].
  rewrite H by apply list_elem_of_here. simpl. f_equal.
  apply IH. intros b Hb. apply H. by apply list_elem_of_further.
Qed.

Lemma enumerate_tab {V} ks (f : string -> V) :
  Obj.enumerate (tab ks f) = tab (Obj.key_order ks) f.
Proof.
  unfold Obj.enumerate. rewrite keys_tab. apply omap_total.
  intros k Hk. rewrite key_order_Permutation in Hk.
  by rewrite (get_tab_in _ _ _ Hk).
Qed.

End Table.

(** ** What loading builds *)

Module Load.
Import Data Views Table.

Lemma bucket_of_snoc incs i d :
  bucket_of (incs ++ [i]) d
  = bucket_of incs d ++ (if String.eqb (date i) d then [i] else []).
Proof. unfold bucket_of. rewrite List.filter_app. done. Qed.

Lemma bucket_of_unseen incs d : d ∉ map date incs -> bucket_of incs d = [].
Proof.
  induction incs as [|i incs IH]; simpl; [done|].
  intros [Hne Hnin]%not_elem_of_cons.
  destruct (String.eqb_spec (date i) d) as [E|_]; [by rewrite E in Hne|by apply IH].
Qed.

Lemma set_add_idem s x : JS.set_add (JS.set_add s x) x = JS.set_add s x.
Proof.
  unfold JS.set_add at 1. rewrite bool_decide_eq_true_2; [done|].
  apply JSFacts.elem_of_set_add. by right.
Qed.

Lemma set_add_in s x : x ∈ s -> JS.set_add s x = s.
Proof. intros H. unfold JS.set_add. by rewrite bool_decide_eq_true_2. Qed.

Lemma index_date_snoc incs i :
  index_date (index_of incs) (date i) i = index_of (incs ++ [i]).
Proof.
  unfold index_date, index_of.
  pose proof (JSFacts.NoDup_unique (map date incs)) as Hnd.
  set (ks := JS.unique (map date incs)) in *.
  rewrite JSFacts.unique_map_snoc. fold ks.
  rewrite has_tab. destruct (decide (date i ∈ ks)) as [Hin|Hnin].
  - rewrite bool_decide_eq_true_2 by done.
    rewrite (get_tab_in _ _ _ Hin), set_tab by done.
    apply tab_ext. intros d Hd. rewrite bucket_of_snoc.
    destruct (String.eqb_spec (date i) d) as [E|Hne].
    + subst d. by rewrite upd_same.
    + rewrite upd_other by done. by rewrite app_nil_r.
  - rewrite bool_decide_eq_false_2 by done.
    rewrite set_tab by done.
    rewrite get_tab_in by (apply JSFacts.elem_of_set_add; by right).
    rewrite set_tab by (by apply JSFacts.NoDup_set_add).
    rewrite set_add_idem. apply tab_ext. intros d Hd. rewrite bucket_of_snoc.
    destruct (String.eqb_spec (date i) d) as [E|Hne].
    + subst d. rewrite !upd_same. rewrite bucket_of_unseen; [done|].
      intros H. apply Hnin. by apply JSFacts.elem_of_unique.
    + rewrite !upd_other by done. by rewrite app_nil_r.
Qed.

(** Reading the index. *)
Lemma index_get incs d :
  default [] (Assoc.get (index_of incs) d) = bucket_of incs d.
Proof.
  unfold index_of. destruct (decide (d ∈ JS.unique (map date incs))) as [Hin|Hnin].
  - by rewrite (get_tab_in _ _ _ Hin).
  - rewrite (get_tab_notin _ _ _ Hnin). simpl. symmetry.
    apply bucket_of_unseen. intros H. apply Hnin. by apply JSFacts.elem_of_unique.
Qed.

Lemma index_keys incs : Assoc.keys (index_of incs) = JS.unique (map date incs).
Proof. apply keys_tab. Qed.

(** *** [src/data-processor.js] *)

Lemma dp_on_data incs row :
  DP.on_data (incs, dp_loading incs) row
  = (incs ++ [DP.incident_of row], dp_loading (incs ++ [DP.incident_of row])).
Proof.
  unfold DP.on_data, dp_loading. simpl. f_equal.
  change (datePart row) with (date (DP.incident_of row)).
  rewrite index_date_snoc, !JSFacts.unique_map_snoc. done.
Qed.

Lemma dp_rows rows incs :
  foldl DP.on_data (incs, dp_loading incs) rows
  = (incs ++ map DP.incident_of rows, dp_loading (incs ++ map DP.incident_of rows)).
Proof.
  revert incs. induction rows as [|row rows IH]; intros incs; cbn [foldl map].
  - by rewrite app_nil_r.
  - rewrite dp_on_data, IH, <- app_assoc. done.
Qed.

Lemma dp_loaded P rows b :
  DP.loadData P rows b
  = let incs := map DP.incident_of rows in
    {| DP.allIncidents := incs;
       DP.dateIndex := index_of incs;
       DP.types := JS.unique (map type incs);
       DP.categories := JS.unique (map category incs);
       DP.provinces := JS.unique (map province incs);
       DP.dates := JS.sort_by (DP.by_date P) (JS.unique (map date incs));
       DP.iraqBoundary := default Json.JNull b;
       DP.isLoaded := true |}.
Proof.
  unfold DP.loadData. change ([], DP.constructor) with ([] : list incident, dp_loading []).
  rewrite dp_rows. simpl. by rewrite index_keys.
Qed.

(** *** The revised class *)

Lemma dp2_on_data incs row :
  DP2.on_data (incs, dp2_loading incs) row
  = (incs ++ [DP2.incident_of row], dp2_loading (incs ++ [DP2.incident_of row])).
Proof.
  unfold DP2.on_data, dp2_loading. simpl. f_equal.
  change (DP2.formattedDate (datePart row)) with (date (DP2.incident_of row)).
  rewrite index_date_snoc, !JSFacts.unique_map_snoc. done.
Qed.

Lemma dp2_rows rows incs :
  foldl DP2.on_data (incs, dp2_loading incs) rows
  = (incs ++ map DP2.incident_of rows, dp2_loading (incs ++ map DP2.incident_of rows)).
Proof.
  revert incs. induction rows as [|row rows IH]; intros incs; cbn [foldl map].
  - by rewrite app_nil_r.
  - rewrite dp2_on_data, IH, <- app_assoc. done.
Qed.

Lemma dp2_loaded rows b h :
  DP2.loadData rows b h
  = let incs := map DP2.incident_of rows in
    {| DP2.allIncidents := incs;
       DP2.dateIndex := index_of incs;
       DP2.types := JS.unique (map type incs);
       DP2.categories := JS.unique (map category incs);
       DP2.provinces := JS.unique (map province incs);
       DP2.dates := JS.sort (JS.unique (map date incs));
       DP2.iraqBoundary := default Json.JNull b;
       DP2.heatmapData := default Json.JNull h;
       DP2.isLoaded := true |}.
Proof.
  unfold DP2.loadData.
  change ([], DP2.constructor) with ([] : list incident, dp2_loading []).
  rewrite dp2_rows. simpl. by rewrite index_keys.
Qed.

End Load.

(** ** Counting *)

Module Counting.

Lemma sum_zero {A} (l : list A) : sum_list_with (fun _ => 0%nat) l = 0%nat.
Proof. induction l; simpl; lia. Qed.

Lemma sum_plus {A} (f g : A -> nat) l :
  sum_list_with (fun a => (f a + g a)%nat) l
  = (sum_list_with f l + sum_list_with g l)%nat.
Proof. induction l; simpl; lia. Qed.

Lemma sum_ext {A} (f g : A -> nat) l :
  (forall a, a ∈ l -> f a = g a) -> sum_list_with f l = sum_list_with g l.
Proof.
  induction l as [|a l IH]; intros H; simpl; [done|].
  rewrite H by apply list_elem_of_here. f_equal.
  apply IH. intros. apply H. by apply list_elem_of_further.
Qed.

(** A key occurs once in a list of distinct keys. *)
Lemma sum_indicator ks k0 :
  NoDup ks -> k0 ∈ ks ->
  sum_list_with (fun k => if String.eqb k0 k then 1%nat else 0%nat) ks = 1%nat.
Proof.
  induction 1 as [|k ks Hnin Hnd IH]; [by intros ?%elem_of_nil|].
  intros Hin. simpl. destruct (String.eqb_spec k0 k) as [->|Hne].
  - rewrite (sum_ext _ (fun _ => 0%nat)), sum_zero; [done|].
    intros a Ha. destruct (String.eqb_spec k a) as [->|]; done.
  - apply elem_of_cons in Hin as [?|Hin]; [done|]. by rewrite IH.
Qed.

(** Grouping a list by a key splits it: the groups of distinct keys
    that cover every element add up to the list. *)
Lemma groups_add_up {A} (f : A -> string) (l : list A) ks :
  NoDup ks -> (forall a, a ∈ l -> f a ∈ ks) ->
  sum_list_with (fun k => length (List.filter (fun a => String.eqb (f a) k) l)) ks
  = length l.
Proof.
  intros Hnd. induction l as [|a l IH]; intros Hin; simpl.
  - apply sum_zero.
  - rewrite (sum_ext _ (fun k =>
      ((if String.eqb (f a) k then 1 else 0)
       + length (List.filter (fun a => String.eqb (f a) k) l))%nat)).
    + rewrite sum_plus, sum_indicator, IH; [done| |done|].
      * intros b Hb. apply Hin. by apply list_elem_of_further.
      * apply Hin, list_elem_of_here.
    + intros k _. by destruct (String.eqb (f a) k).
Qed.

Lemma filter_unseen {A} (f : A -> string) (l : list A) k :
  k ∉ map f l -> List.filter (fun a => String.eqb (f a) k) l = [].
Proof.
  induction l as [|a l IH]; simpl; [done|].
  intros [Hne Hnin]%not_elem_of_cons.
  destruct (String.eqb_spec (f a) k) as [E|_]; [by rewrite E in Hne|by apply IH].
Qed.

End Counting.

(** * Part IV: properties *)

Module Lookup.
Import Data.

(** ** The date index splits the record list *)

Lemma getIncidents_none idx d :
  Engine.getIncidents idx d Filter.none = default [] (Assoc.get idx d).
Proof. done. Qed.

Lemma buckets_add_up incs ds :
  ds ≡ₚ JS.unique (map date incs) ->
  sum_list_with (fun d => length (Views.bucket_of incs d)) ds = length incs.
Proof.
  intros ->. apply Counting.groups_add_up; [apply JSFacts.NoDup_unique|].
  intros i Hi. apply JSFacts.elem_of_unique.
  apply list_elem_of_In, in_map. by apply list_elem_of_In.
Qed.

(** C7. After [loadData], the lengths of [getIncidents(date, {})] over
    the dates of [getDates()] add up to the length of the full record
    list: the buckets of the date index split the list. *)
Theorem C7_buckets_partition (P : string -> JS.number)
    (rows : list (gmap string string)) (b : option Json.json) :
  sum_list_with
    (fun d => length (DP.getIncidents (DP.loadData P rows b) d Filter.none))
    (DP.getDates (DP.loadData P rows b))
  = length (DP.allIncidents (DP.loadData P rows b)).
Proof.
  rewrite Load.dp_loaded. unfold DP.getIncidents, DP.getDates. cbn [DP.dateIndex DP.dates DP.allIncidents].
  rewrite (Counting.sum_ext _ (fun d => length (Views.bucket_of (map DP.incident_of rows) d))).
  - apply buckets_add_up, JSFacts.sort_by_Permutation.
  - intros d _. by rewrite getIncidents_none, Load.index_get.
Qed.

(** The same holds of the revised class. *)
Lemma buckets_partition_revised rows b h :
  sum_list_with
    (fun d => length (DP2.getIncidents (DP2.loadData rows b h) d Filter.none))
    (DP2.getDates (DP2.loadData rows b h))
  = length (DP2.allIncidents (DP2.loadData rows b h)).
Proof.
  rewrite Load.dp2_loaded. unfold DP2.getIncidents, DP2.getDates.
  cbn [DP2.dateIndex DP2.dates DP2.allIncidents].
  rewrite (Counting.sum_ext _ (fun d => length (Views.bucket_of (map DP2.incident_of rows) d))).
  - apply buckets_add_up, JSFacts.sort_Permutation.
  - intros d _. by rewrite getIncidents_none, Load.index_get.
Qed.

(** ** Lookup by date *)

Lemma filter_twice {A} (p q : A -> bool) l :
  List.filter q (List.filter p l) = List.filter (fun a => p a && q a) l.
Proof.
  induction l as [|a l IH]; simpl; [done|].
  destruct (p a); simpl; [|done]. destruct (q a); by rewrite IH.
Qed.

Lemma filter_all {A} (p : A -> bool) l :
  (forall a, p a = true) -> List.filter p l = l.
Proof.
  intros H. induction l as [|a l IH]; simpl; [done|]. by rewrite H, IH.
Qed.

Lemma applies_left_out v : Filter.applies v = negb (Spec.left_out v).
Proof. destruct v as [|[|c s]|]; done. Qed.

(** One of the three conditional [filter] calls. *)
Lemma narrow_once v (field : incident -> string) l :
  (if Filter.applies v then List.filter (fun i => Filter.equals v (field i)) l else l)
  = List.filter (fun i => Spec.left_out v || Filter.equals v (field i)) l.
Proof.
  rewrite applies_left_out. destruct (Spec.left_out v); simpl; [|done].
  by rewrite filter_all.
Qed.

Lemma getIncidents_narrows idx d f :
  Engine.getIncidents idx d f
  = List.filter (Spec.narrows Spec.left_out f) (default [] (Assoc.get idx d)).
Proof.
  unfold Engine.getIncidents. cbv zeta.
  rewrite !narrow_once, !filter_twice. apply List.filter_ext.
  intros i. unfold Spec.narrows. by rewrite andb_assoc.
Qed.

(** C4, as amended.  [getIncidents] returns the bucket of the date (the
    empty sequence when the date is no key) narrowed by the conjunction
    of the equality filters on type, category and province, where a
    filter whose value is absent, empty or ["all"] is left out; after
    [loadData] that is the sequence of the loaded records of that date
    that pass the filters, in source order. *)
Theorem C4_lookup_narrowed (P : string -> JS.number)
    (rows : list (gmap string string)) (b : option Json.json)
    (this : DP.t) (d : string) (f : Filter.filters) :
  DP.getIncidents this d f
  = List.filter (Spec.narrows Spec.left_out f)
      (default [] (Assoc.get (DP.dateIndex this) d))
  /\ DP.getIncidents (DP.loadData P rows b) d f
     = List.filter
         (fun i => String.eqb (date i) d && Spec.narrows Spec.left_out f i)
         (DP.allIncidents (DP.loadData P rows b)).
Proof.
  split; [apply getIncidents_narrows|].
  rewrite Load.dp_loaded. unfold DP.getIncidents.
  cbn [DP.dateIndex DP.allIncidents].
  rewrite getIncidents_narrows, Load.index_get. unfold Views.bucket_of.
  apply filter_twice.
Qed.

(** C4, as stated, fails on an empty filter value: the value is not
    absent and is not ["all"], yet the code leaves the filter out and
    returns the whole bucket, where an equality filter on the empty type
    keeps nothing. *)
Lemma C4_empty_filter_value :
  let st := DP.loadData HostDate.iso_date
              [ {[ "date_time_occ" := "2007-12-05 10:00:00";
                   "Incident Type" := "Enemy Action" ]} ] None in
  let f := {| Filter.type := Filter.Str "";
              Filter.category := Filter.Absent;
              Filter.province := Filter.Absent |} in
  map type (DP.getIncidents st "2007-12-05" f) = ["Enemy Action"]
  /\ List.filter (Spec.narrows Spec.left_out_as_stated f)
       (default [] (Assoc.get (DP.dateIndex st) "2007-12-05")) = [].
Proof. split; vm_compute; reflexivity. Qed.

(** ** The index invariant *)

Lemma bucket_of_date incs d r : r ∈ Views.bucket_of incs d -> date r = d.
Proof.
  unfold Views.bucket_of. intros [_ H]%list_elem_of_In%filter_In.
  by apply String.eqb_eq.
Qed.

Lemma index_bucket_date incs d bucket r :
  Assoc.get (Views.index_of incs) d = Some bucket -> r ∈ bucket -> date r = d.
Proof.
  intros [_ ->]%Table.get_tab_Some. apply bucket_of_date.
Qed.

Lemma lookup_date incs d f r :
  r ∈ Engine.getIncidents (Views.index_of incs) d f -> date r = d.
Proof.
  rewrite getIncidents_narrows, Load.index_get.
  intros [H _]%list_elem_of_In%filter_In.
  apply (bucket_of_date incs). by apply list_elem_of_In.
Qed.

(** C10. Every record in the bucket the date index keeps under a key
    has that key as its date, in both classes; hence every record that
    [getIncidents(d, f)] returns has date [d]. *)
Theorem C10_bucket_dates (P : string -> JS.number)
    (rows : list (gmap string string)) (b h : option Json.json)
    (d : string) (f : Filter.filters) (r : incident) :
  (forall bucket,
      Assoc.get (DP.dateIndex (DP.loadData P rows b)) d = Some bucket ->
      r ∈ bucket -> date r = d)
  /\ (r ∈ DP.getIncidents (DP.loadData P rows b) d f -> date r = d)
  /\ (forall bucket,
      Assoc.get (DP2.dateIndex (DP2.loadData rows b h)) d = Some bucket ->
      r ∈ bucket -> date r = d)
  /\ (r ∈ DP2.getIncidents (DP2.loadData rows b h) d f -> date r = d).
Proof.
  rewrite Load.dp_loaded, Load.dp2_loaded.
  unfold DP.getIncidents, DP2.getIncidents. cbn [DP.dateIndex DP2.dateIndex].
  split_and!.
  - intros bucket. apply index_bucket_date.
  - apply lookup_date.
  - intros bucket. apply index_bucket_date.
  - apply lookup_date.
Qed.

Lemma C10_witness :
  date (DP2.incident_of {[ "date_time_occ" := "12/5/2007 10:00:00" ]})
  = "2007-12-05".
Proof.
  apply (proj2 (proj2 (proj2
    (C10_bucket_dates HostDate.iso_date
       [ {[ "date_time_occ" := "12/5/2007 10:00:00" ]} ] None None
       "2007-12-05" Filter.none
       (DP2.incident_of {[ "date_time_occ" := "12/5/2007 10:00:00" ]}))))).
  vm_compute. apply list_elem_of_here.
Defined.

(** ** Fallbacks *)

Lemma or_else_missing v d : v = None \/ v = Some "" -> JS.or_else v d = d.
Proof. by intros [->| ->]. Qed.

Lemma dp_allIncidents P rows b :
  DP.allIncidents (DP.loadData P rows b) = map DP.incident_of rows.
Proof. by rewrite Load.dp_loaded. Qed.

Lemma dp2_allIncidents rows b h :
  DP2.allIncidents (DP2.loadData rows b h) = map DP2.incident_of rows.
Proof. by rewrite Load.dp2_loaded. Qed.

(** C8. In every record built from a row, a classification field whose
    column is missing or empty holds its fallback: ["Unknown"] for the
    type and ["N/A"] for category, target category, target, force type,
    city and province.  The loaded records are the records built from
    the rows, and when a row lacks its type, ["Unknown"] is among the
    types of [getMetadata]. *)
Theorem C8_fallbacks (P : string -> JS.number)
    (rows : list (gmap string string)) (b : option Json.json)
    (row : gmap string string) :
  let missing (v : option string) := v = None \/ v = Some "" in
  let i := DP.incident_of row in
  DP.allIncidents (DP.loadData P rows b) = map DP.incident_of rows
  /\ (missing (row !! "Incident Type") -> type i = "Unknown")
  /\ (missing (row !! "Incident Category") -> category i = "N/A")
  /\ (missing (row !! "Target Category") -> targetCategory i = "N/A")
  /\ (missing (row !! "target") -> target i = "N/A")
  /\ (missing (row !! "force_type") -> forceType i = "N/A")
  /\ (missing (row !! "City") -> city i = "N/A")
  /\ (missing (row !! "Province") -> province i = "N/A")
  /\ (row ∈ rows -> missing (row !! "Incident Type") ->
      "Unknown" ∈ Engine.md_types (DP.getMetadata (DP.loadData P rows b))).
Proof.
  cbv zeta. split; [apply dp_allIncidents|].
  split_and!; try (intros H; simpl; by apply or_else_missing).
  intros Hrow H. rewrite Load.dp_loaded. unfold DP.getMetadata. simpl.
  apply JSFacts.elem_of_sort, JSFacts.elem_of_unique.
  apply list_elem_of_In, in_map_iff. exists (DP.incident_of row). split.
  - simpl. by apply or_else_missing.
  - apply in_map. by apply list_elem_of_In.
Qed.

Lemma C8_witness :
  "Unknown" ∈ Engine.md_types
    (DP.getMetadata
       (DP.loadData HostDate.iso_date
          [ {[ "date_time_occ" := "2007-12-05 10:00:00" ]} ] None)).
Proof.
  apply (proj2 (proj2 (proj2 (proj2 (proj2 (proj2 (proj2 (proj2
    (C8_fallbacks HostDate.iso_date
       [ {[ "date_time_occ" := "2007-12-05 10:00:00" ]} ] None
       {[ "date_time_occ" := "2007-12-05 10:00:00" ]}))))))))).
  - apply list_elem_of_here.
  - left. vm_compute. reflexivity.
Defined.

End Lookup.

(** ** Dates *)

Module Dates.
Import Data.

Lemma digit_not_slash c : Spec.is_digit c = true -> Ascii.eqb c "/" = false.
Proof. destruct c as [[] [] [] [] [] [] [] []]; by vm_compute. Qed.

Lemma digit_not_dash c : Spec.is_digit c = true -> Ascii.eqb c "-" = false.
Proof. destruct c as [[] [] [] [] [] [] [] []]; by vm_compute. Qed.

Lemma dash_not_slash c : Ascii.eqb c "-" = true -> Ascii.eqb c "/" = false.
Proof. by intros ->%Ascii.eqb_eq. Qed.

(** A canonical date has no slash. *)
Lemma ymd_no_slash s : Spec.is_ymd s = true -> JS.includes "/" s = false.
Proof.
  destruct s as [|y1 [|y2 [|y3 [|y4 [|s1 [|m1 [|m2 [|s2 [|d1 [|d2 [|]]]]]]]]]]];
    try discriminate.
  unfold Spec.is_ymd. rewrite !andb_true_iff.
  intros [[[[[[[[[H1 H2] H3] H4] H5] H6] H7] H8] H9] H10].
  simpl.
  rewrite (digit_not_slash y1), (digit_not_slash y2), (digit_not_slash y3),
    (digit_not_slash y4), (dash_not_slash s1), (digit_not_slash m1),
    (digit_not_slash m2), (dash_not_slash s2), (digit_not_slash d1),
    (digit_not_slash d2) by done.
  done.
Qed.

Lemma formattedDate_three raw m d y :
  JS.split "/" raw = [m; d; y] ->
  DP2.formattedDate raw = y +:+ "-" +:+ JS.padStart2 m +:+ "-" +:+ JS.padStart2 d.
Proof.
  intros H. unfold DP2.formattedDate.
  by rewrite (JSFacts.split_several _ _ _ _ _ H), H.
Qed.

Lemma formattedDate_other raw :
  JS.includes "/" raw = false \/ length (JS.split "/" raw) <> 3%nat ->
  DP2.formattedDate raw = raw.
Proof.
  unfold DP2.formattedDate. intros [-> | H]; [done|].
  destruct (JS.includes "/" raw); [|done].
  by destruct (JS.split "/" raw) as [|p0 [|p1 [|p2 [|p3 l]]]].
Qed.

(** A padded month or day is two digits. *)
Lemma padStart2_short s :
  Spec.is_short s = true ->
  exists a b, JS.padStart2 s = String a (String b EmptyString)
              /\ Spec.is_digit a = true /\ Spec.is_digit b = true.
Proof.
  destruct s as [|a [|b [|]]]; try discriminate; simpl.
  - intros H. by exists "0"%char, a.
  - intros [??]%andb_true_iff. by exists a, b.
Qed.

Lemma formattedDate_mdy raw :
  Spec.is_mdy raw = true -> Spec.is_ymd (DP2.formattedDate raw) = true.
Proof.
  unfold Spec.is_mdy.
  destruct (JS.split "/" raw) as [|m [|d [|y [|]]]] eqn:E; try discriminate.
  rewrite !andb_true_iff. intros [[Hm Hd] Hy].
  rewrite (formattedDate_three _ _ _ _ E).
  destruct (padStart2_short _ Hm) as (m1 & m2 & -> & Hm1 & Hm2).
  destruct (padStart2_short _ Hd) as (d1 & d2 & -> & Hd1 & Hd2).
  destruct y as [|y1 [|y2 [|y3 [|y4 [|]]]]]; try discriminate.
  simpl in Hy. rewrite !andb_true_iff in Hy. destruct Hy as [[[H1 H2] H3] H4].
  simpl. by rewrite H1, H2, H3, H4, Hm1, Hm2, Hd1, Hd2.
Qed.

Lemma formattedDate_ymd raw :
  Spec.is_ymd raw = true -> DP2.formattedDate raw = raw.
Proof. intros H. apply formattedDate_other. left. by apply ymd_no_slash. Qed.

(** C1, as amended.  The revised loader stores every record with the
    date part of its timestamp rewritten: a date part that splits at its
    slashes into exactly three parts [M], [D], [Y] is stored as
    [Y-MM-DD] with month and day padded with zeros to two places, and
    any other date part is stored as it stands.  So the stored date is
    in the form [YYYY-MM-DD] when the date part is [M/D/YYYY] (month and
    day of one or two digits, year of four) or is in that form already.
    The loader of [src/data-processor.js] stores the date part as it
    stands in every case. *)
Theorem C1_date_rewriting (P : string -> JS.number)
    (rows : list (gmap string string)) (b h : option Json.json)
    (row : gmap string string) :
  let raw := datePart row in
  DP2.allIncidents (DP2.loadData rows b h) = map DP2.incident_of rows
  /\ (forall m d y, JS.split "/" raw = [m; d; y] ->
        date (DP2.incident_of row)
        = y +:+ "-" +:+ JS.padStart2 m +:+ "-" +:+ JS.padStart2 d)
  /\ (JS.includes "/" raw = false \/ length (JS.split "/" raw) <> 3%nat ->
        date (DP2.incident_of row) = raw)
  /\ (Spec.is_mdy raw = true -> Spec.is_ymd (date (DP2.incident_of row)) = true)
  /\ (Spec.is_ymd raw = true -> date (DP2.incident_of row) = raw)
  /\ DP.allIncidents (DP.loadData P rows b) = map DP.incident_of rows
  /\ date (DP.incident_of row) = raw.
Proof.
  cbv zeta. split_and!.
  - apply Lookup.dp2_allIncidents.
  - intros m d y. apply formattedDate_three.
  - apply formattedDate_other.
  - apply formattedDate_mdy.
  - apply formattedDate_ymd.
  - apply Lookup.dp_allIncidents.
  - done.
Qed.

Lemma C1_witness :
  Spec.is_ymd
    (date (DP2.incident_of {[ "date_time_occ" := "12/5/2007 10:30:00" ]}))
  = true.
Proof.
  apply (proj1 (proj2 (proj2 (proj2
    (C1_date_rewriting HostDate.iso_date [] None None
       {[ "date_time_occ" := "12/5/2007 10:30:00" ]}))))).
  vm_compute. reflexivity.
Defined.

(** C1, as stated, fails: the dates of these three loaded records are
    not in the form [YYYY-MM-DD].  The first has a slash and is not
    rewritten, the second is passed through, the third comes from a row
    without timestamp. *)
Lemma C1_dates_not_canonical :
  map (fun i => (date i, Spec.is_ymd (date i)))
    (DP2.allIncidents
       (DP2.loadData
          [ {[ "date_time_occ" := "5/2007 10:30:00" ]};
            {[ "date_time_occ" := "2008-1-2 10:30:00" ]};
            ∅ ] None None))
  = [("5/2007", false); ("2008-1-2", false); ("", false)].
Proof. vm_compute. reflexivity. Qed.

(** *** Order *)

(** Sorting by the comparator of [src/data-processor.js]. *)
Lemma by_date_le P a b :
  Spec.valid_date P a -> Spec.valid_date P b ->
  (JS.sort_compare (DP.by_date P a b) <=? 0) = true <-> Spec.time_le P a b.
Proof.
  unfold Spec.valid_date, DP.by_date, Spec.time_le.
  destruct (P a), (P b); try done. simpl. rewrite Z.leb_le. lia.
Qed.

Lemma time_le_trans P : Transitive (Spec.time_le P).
Proof.
  intros a b c. unfold Spec.time_le.
  destruct (P a), (P b), (P c); try done. lia.
Qed.

Lemma time_le_total P a b :
  Spec.valid_date P a -> Spec.valid_date P b ->
  Spec.time_le P a b \/ Spec.time_le P b a.
Proof.
  unfold Spec.valid_date, Spec.time_le. destruct (P a), (P b); try done. lia.
Qed.

Lemma insert_by_sorted P x l :
  Spec.valid_date P x -> Forall (Spec.valid_date P) l ->
  Spec.ascending_by_time P l ->
  Spec.ascending_by_time P (JS.insert_by (DP.by_date P) x l).
Proof.
  unfold Spec.ascending_by_time. intros Hx Hl Hs.
  induction Hs as [|y l Hs IH Hy]; simpl; [by repeat constructor|].
  apply Forall_cons in Hl as [Hvy Hl].
  destruct (_ <=? _) eqn:E.
  - apply by_date_le in E; [|done..]. constructor; [by constructor|].
    constructor; [done|]. eapply Forall_impl; [exact Hy|].
    intros z Hz. by eapply time_le_trans.
  - constructor; [by apply IH|].
    rewrite JSFacts.insert_by_Permutation. constructor; [|done].
    destruct (time_le_total P x y Hx Hvy) as [H|H]; [|done].
    apply by_date_le in H; [|done..]. congruence.
Qed.

Lemma sort_by_sorted P l :
  Forall (Spec.valid_date P) l ->
  Spec.ascending_by_time P (JS.sort_by (DP.by_date P) l).
Proof.
  induction 1 as [|x l Hx Hl IH]; simpl; [constructor|].
  apply insert_by_sorted; [done| |done].
  by rewrite JSFacts.sort_by_Permutation.
Qed.

(** Canonical dates: string order is calendar order. *)
Lemma digit_value_range c v : JS.digit_value 10 c = Some v -> 0 <= v <= 9.
Proof.
  unfold JS.digit_value.
  set (n := Z.of_N (N_of_ascii c)). intros H.
  repeat match type of H with
         | context [if ?t then _ else _] => destruct t eqn:?
         end; simplify_eq; lia.
Qed.

Lemma digit_compare c c' v v' :
  JS.digit_value 10 c = Some v -> JS.digit_value 10 c' = Some v' ->
  Ascii.compare c c' = (v ?= v').
Proof.
  unfold JS.digit_value, Ascii.compare.
  rewrite <- N2Z.inj_compare.
  set (n := Z.of_N (N_of_ascii c)). set (n' := Z.of_N (N_of_ascii c')).
  intros H H'.
  assert (v = n - 48) as ->.
  { repeat match type of H with
           | context [if ?t then _ else _] => destruct t eqn:?
           end; simplify_eq; lia. }
  assert (v' = n' - 48) as ->.
  { repeat match type of H' with
           | context [if ?t then _ else _] => destruct t eqn:?
           end; simplify_eq; lia. }
  destruct (Z.compare_spec n n'), (Z.compare_spec (n - 48) (n' - 48));
    try done; lia.
Qed.

Lemma is_digit_value c :
  Spec.is_digit c = true -> exists v, JS.digit_value 10 c = Some v.
Proof. unfold Spec.is_digit. destruct (JS.digit_value 10 c); by eauto. Qed.

Lemma split_digit c s :
  Spec.is_digit c = true ->
  JS.split "-" (String c s)
  = match JS.split "-" s with
    | p :: ps => String c p :: ps
    | [] => [String c EmptyString]
    end.
Proof. intros H. cbn [JS.split]. by rewrite (digit_not_dash _ H). Qed.

Lemma split_dash s : JS.split "-" (String "-" s) = EmptyString :: JS.split "-" s.
Proof. done. Qed.

(** The shape and the calendar value of a canonical date. *)
Lemma ymd_calendar s :
  Spec.is_ymd s = true ->
  exists y1 y2 y3 y4 m1 m2 d1 d2 a1 a2 a3 a4 b1 b2 c1 c2,
    s = String y1 (String y2 (String y3 (String y4 (String "-"
          (String m1 (String m2 (String "-"
            (String d1 (String d2 EmptyString)))))))))
    /\ JS.digit_value 10 y1 = Some a1 /\ JS.digit_value 10 y2 = Some a2
    /\ JS.digit_value 10 y3 = Some a3 /\ JS.digit_value 10 y4 = Some a4
    /\ JS.digit_value 10 m1 = Some b1 /\ JS.digit_value 10 m2 = Some b2
    /\ JS.digit_value 10 d1 = Some c1 /\ JS.digit_value 10 d2 = Some c2
    /\ Spec.calendar s
       = Some (((a1 * 10 + a2) * 10 + a3) * 10 + a4, b1 * 10 + b2, c1 * 10 + c2).
Proof.
  intros Hs. pose proof (ymd_no_slash _ Hs) as Hns. revert Hs Hns.
  destruct s as [|y1 [|y2 [|y3 [|y4 [|s1 [|m1 [|m2 [|s2 [|d1 [|d2 [|]]]]]]]]]]];
    try discriminate.
  unfold Spec.is_ymd. rewrite !andb_true_iff.
  intros [[[[[[[[[H1 H2] H3] H4] H5] H6] H7] H8] H9] H10] Hns.
  apply Ascii.eqb_eq in H5, H8. subst s1 s2.
  destruct (is_digit_value _ H1) as [a1 E1], (is_digit_value _ H2) as [a2 E2],
    (is_digit_value _ H3) as [a3 E3], (is_digit_value _ H4) as [a4 E4],
    (is_digit_value _ H6) as [b1 E5], (is_digit_value _ H7) as [b2 E6],
    (is_digit_value _ H9) as [c1 E7], (is_digit_value _ H10) as [c2 E8].
  exists y1, y2, y3, y4, m1, m2, d1, d2, a1, a2, a3, a4, b1, b2, c1, c2.
  split_and!; try done.
  unfold Spec.calendar. rewrite Hns.
  rewrite !split_digit, split_dash, !split_digit, split_dash, !split_digit by done.
  cbn [JS.split]. unfold Spec.numeral.
  cbn [Obj.all_digits JS.read_digits].
  rewrite E1, E2, E3, E4, E5, E6, E7, E8. cbn [default]. 
  do 3 f_equal; lia.
Qed.

Lemma day_lt_spec y m d y' m' d' :
  Spec.day_lt (y, m, d) (y', m', d') = true
  <-> y < y' \/ (y = y' /\ (m < m' \/ (m = m' /\ d < d'))).
Proof.
  unfold Spec.day_lt.
  rewrite !orb_true_iff, !andb_true_iff, !orb_true_iff, !andb_true_iff,
    !Z.ltb_lt, !Z.eqb_eq. done.
Qed.

Lemma canonical_order a b :
  Spec.is_ymd a = true -> Spec.is_ymd b = true ->
  Spec.string_lt a b -> Spec.before a b = true.
Proof.
  intros (y1 & y2 & y3 & y4 & m1 & m2 & d1 & d2 & a1 & a2 & a3 & a4 & b1 & b2
          & c1 & c2 & -> & E1 & E2 & E3 & E4 & E5 & E6 & E7 & E8 & Ha)%ymd_calendar.
  intros (y1' & y2' & y3' & y4' & m1' & m2' & d1' & d2' & a1' & a2' & a3' & a4'
          & b1' & b2' & c1' & c2' & -> & E1' & E2' & E3' & E4' & E5' & E6' & E7'
          & E8' & Hb)%ymd_calendar.
  unfold Spec.before. rewrite Ha, Hb. rewrite day_lt_spec.
  unfold Spec.string_lt. cbn [String.compare].
  rewrite (digit_compare _ _ _ _ E1 E1'), (digit_compare _ _ _ _ E2 E2'),
    (digit_compare _ _ _ _ E3 E3'), (digit_compare _ _ _ _ E4 E4'),
    (digit_compare _ _ _ _ E5 E5'), (digit_compare _ _ _ _ E6 E6'),
    (digit_compare _ _ _ _ E7 E7'), (digit_compare _ _ _ _ E8 E8').
  change (Ascii.compare "-" "-") with Eq. cbv iota.
  apply digit_value_range in E1, E2, E3, E4, E5, E6, E7, E8,
    E1', E2', E3', E4', E5', E6', E7', E8'.
  repeat match goal with
         | |- context [?x ?= ?y] =>
             destruct (Z.compare_spec x y); [subst| |]; try discriminate
         end;
  intros _; lia.
Qed.

Lemma strings_calendar l :
  Forall (fun d => Spec.is_ymd d = true) l ->
  Spec.ascending_as_strings l -> Spec.ascending_by_calendar l.
Proof.
  unfold Spec.ascending_as_strings, Spec.ascending_by_calendar.
  intros Hl Hs. induction Hs as [|x l Hs IH Hx]; [constructor|].
  apply Forall_cons in Hl as [Hvx Hl]. constructor; [by apply IH|].
  apply Forall_forall. intros y Hy. apply canonical_order; [done| |].
  - by eapply Forall_forall in Hl.
  - by eapply Forall_forall in Hx.
Qed.

(** C3, as amended.  After [loadData], [getDates] holds exactly the keys
    of the date index, each once.  In the revised class they are in
    strictly ascending string order, which is strictly ascending
    calendar order when every key is in the form [YYYY-MM-DD].  In
    [src/data-processor.js] they are sorted by the time value the host's
    [Date] gives them, ascending when every key is a valid date. *)
Theorem C3_dates_sorted (P : string -> JS.number)
    (rows : list (gmap string string)) (b h : option Json.json) :
  let st2 := DP2.loadData rows b h in
  let st := DP.loadData P rows b in
  DP2.getDates st2 ≡ₚ Assoc.keys (DP2.dateIndex st2)
  /\ NoDup (DP2.getDates st2)
  /\ Spec.ascending_as_strings (DP2.getDates st2)
  /\ (Forall (fun d => Spec.is_ymd d = true) (DP2.getDates st2) ->
      Spec.ascending_by_calendar (DP2.getDates st2))
  /\ DP.getDates st ≡ₚ Assoc.keys (DP.dateIndex st)
  /\ NoDup (DP.getDates st)
  /\ (Forall (Spec.valid_date P) (Assoc.keys (DP.dateIndex st)) ->
      Spec.ascending_by_time P (DP.getDates st)).
Proof.
  cbv zeta. rewrite Load.dp_loaded, Load.dp2_loaded.
  unfold DP.getDates, DP2.getDates.
  cbn [DP.dates DP.dateIndex DP2.dates DP2.dateIndex].
  rewrite !Load.index_keys.
  pose proof (JSFacts.NoDup_unique (map date (map DP2.incident_of rows))) as Hnd2.
  pose proof (JSFacts.NoDup_unique (map date (map DP.incident_of rows))) as Hnd.
  split_and!.
  - apply JSFacts.sort_Permutation.
  - by apply JSFacts.NoDup_sort.
  - by apply JSFacts.sort_ascending.
  - intros H. apply strings_calendar; [done|]. by apply JSFacts.sort_ascending.
  - apply JSFacts.sort_by_Permutation.
  - by rewrite JSFacts.sort_by_Permutation.
  - apply sort_by_sorted.
Qed.

Lemma C3_witness :
  Spec.ascending_by_calendar
    (DP2.getDates
       (DP2.loadData
          [ {[ "date_time_occ" := "12/5/2007 10:30:00" ]};
            {[ "date_time_occ" := "2008-01-02 09:00:00" ]};
            {[ "date_time_occ" := "12/5/2007 23:10:00" ]} ] None None)).
Proof.
  apply (proj1 (proj2 (proj2 (proj2
    (C3_dates_sorted HostDate.iso_date
       [ {[ "date_time_occ" := "12/5/2007 10:30:00" ]};
         {[ "date_time_occ" := "2008-01-02 09:00:00" ]};
         {[ "date_time_occ" := "12/5/2007 23:10:00" ]} ] None None))))).
  vm_compute. repeat constructor.
Defined.

(** C3, as stated, fails: the revised class sorts the keys as strings,
    and a date part without slash is a key as it stands.  Here the first
    of February 2007 is listed after the fifth of December 2007. *)
Lemma C3_string_order_not_calendar :
  DP2.getDates
    (DP2.loadData
       [ {[ "date_time_occ" := "2007-2-01 10:30:00" ]};
         {[ "date_time_occ" := "2007-12-05 09:00:00" ]} ] None None)
  = ["2007-12-05"; "2007-2-01"]
  /\ Spec.before "2007-12-05" "2007-2-01" = false
  /\ Spec.before "2007-2-01" "2007-12-05" = true.
Proof. split_and!; vm_compute; reflexivity. Qed.

(** The example of the specification. *)
Example dates_example :
  let st := DP2.loadData
              [ {[ "date_time_occ" := "12/5/2007" ]};
                {[ "date_time_occ" := "2008-01-02" ]};
                {[ "date_time_occ" := "12/5/2007" ]} ] None None in
  DP2.getDates st = ["2007-12-05"; "2008-01-02"]
  /\ length (DP2.getIncidents st "2007-12-05" Filter.none) = 2%nat.
Proof. split; vm_compute; reflexivity. Qed.

End Dates.

(** ** Time of day *)

Module Radar.
Import Data Views.

Lemma in_range_in n lo hi : lo <= n < hi -> JS.in_range (JS.Num n) lo hi = true.
Proof. intros. simpl. apply andb_true_iff. rewrite Z.leb_le, Z.ltb_lt. lia. Qed.

Lemma in_range_out n lo hi :
  n < lo \/ hi <= n -> JS.in_range (JS.Num n) lo hi = false.
Proof. intros. simpl. apply andb_false_iff. rewrite Z.leb_gt, Z.ltb_ge. lia. Qed.

Ltac settle :=
  repeat match goal with
         | |- context [JS.in_range (JS.Num ?n) ?lo ?hi] =>
             first [ rewrite (in_range_in n lo hi) by lia
                   | rewrite (in_range_out n lo hi) by lia ]
         end.

Lemma hours n :
  n < 0 \/ 0 <= n < 4 \/ 4 <= n < 9 \/ 9 <= n < 12 \/ 12 <= n < 15
  \/ 15 <= n < 18 \/ 18 <= n < 22 \/ 22 <= n < 24 \/ 24 <= n.
Proof. lia. Qed.

Lemma hist_step_table ty c0 c1 c2 c3 c4 c5 c6 e i :
  hist_step ty (table c0 c1 c2 c3 c4 c5 c6 e) i
  = table (c0 + one (Spec.in_bucket ty (0, 4) i))
          (c1 + one (Spec.in_bucket ty (4, 9) i))
          (c2 + one (Spec.in_bucket ty (9, 12) i))
          (c3 + one (Spec.in_bucket ty (12, 15) i))
          (c4 + one (Spec.in_bucket ty (15, 18) i))
          (c5 + one (Spec.in_bucket ty (18, 22) i))
          (c6 + one (Spec.in_bucket ty (22, 24) i))
          (e || stray ty i).
Proof.
  unfold hist_step, Spec.in_bucket, stray.
  destruct (JS.truthy (time i) && String.eqb (type i) ty); cbn [andb fst snd].
  - unfold Engine.timeCategory. destruct (Engine.hour i) as [n|].
    + destruct (hours n) as [H|[H|[H|[H|[H|[H|[H|[H|H]]]]]]]]; settle;
        cbn [one negb]; rewrite ?Z.add_0_r; by destruct e.
    + cbn [JS.in_range negb one]. rewrite ?Z.add_0_r. by destruct e.
  - cbn [one]. rewrite ?Z.add_0_r, orb_false_r. done.
Qed.

Lemma count_cons p i l :
  Spec.count p (i :: l) = one (p i) + Spec.count p l.
Proof.
  unfold Spec.count, one. simpl. destruct (p i); simpl length; lia.
Qed.

Lemma hist_fold ty l : forall c0 c1 c2 c3 c4 c5 c6 e,
  foldl (hist_step ty) (table c0 c1 c2 c3 c4 c5 c6 e) l
  = table (c0 + Spec.count (Spec.in_bucket ty (0, 4)) l)
          (c1 + Spec.count (Spec.in_bucket ty (4, 9)) l)
          (c2 + Spec.count (Spec.in_bucket ty (9, 12)) l)
          (c3 + Spec.count (Spec.in_bucket ty (12, 15)) l)
          (c4 + Spec.count (Spec.in_bucket ty (15, 18)) l)
          (c5 + Spec.count (Spec.in_bucket ty (18, 22)) l)
          (c6 + Spec.count (Spec.in_bucket ty (22, 24)) l)
          (e || existsb (stray ty) l).
Proof.
  induction l as [|i l IH]; intros; cbn [foldl existsb].
  - unfold Spec.count. simpl. by rewrite !Z.add_0_r, orb_false_r.
  - rewrite hist_step_table, IH, !count_cons, orb_assoc.
    f_equal; lia.
Qed.

Lemma radar_step_split tE tX i :
  Engine.radar_step (tE, tX) i
  = (hist_step "Enemy Action" tE i, hist_step "Explosive Hazard" tX i).
Proof.
  unfold Engine.radar_step, hist_step.
  destruct (JS.truthy (time i)); [|done]. simpl.
  destruct (String.eqb_spec (type i) "Enemy Action") as [E|_]; [|by destruct (_ =? _)%string].
  by rewrite E.
Qed.

Lemma radar_fold l : forall tE tX,
  foldl Engine.radar_step (tE, tX) l
  = (foldl (hist_step "Enemy Action") tE l,
     foldl (hist_step "Explosive Hazard") tX l).
Proof.
  induction l as [|i l IH]; intros; cbn [foldl]; [done|].
  by rewrite radar_step_split, IH.
Qed.

(** Reading a table back. *)
Lemma table_categories c0 c1 c2 c3 c4 c5 c6 e :
  Engine.categories (Engine.histogram_of (table c0 c1 c2 c3 c4 c5 c6 e))
  = Engine.labels ++ (if e then [""] else []).
Proof. by destruct e. Qed.

Lemma table_seven c0 c1 c2 c3 c4 c5 c6 e :
  Spec.seven (Engine.histogram_of (table c0 c1 c2 c3 c4 c5 c6 e))
  = map (fun c => Some (JS.Num c)) [c0; c1; c2; c3; c4; c5; c6].
Proof. by destruct e. Qed.

Lemma table_seven_total c0 c1 c2 c3 c4 c5 c6 e :
  Spec.seven_total (Engine.histogram_of (table c0 c1 c2 c3 c4 c5 c6 e))
  = JS.Num (c0 + (c1 + (c2 + (c3 + (c4 + (c5 + (c6 + 0))))))).
Proof. by destruct e. Qed.

(** The buckets split the hours from 0 to 23. *)
Lemma buckets_split ty l :
  Spec.count (Spec.in_bucket ty (0, 4)) l
  + (Spec.count (Spec.in_bucket ty (4, 9)) l
  + (Spec.count (Spec.in_bucket ty (9, 12)) l
  + (Spec.count (Spec.in_bucket ty (12, 15)) l
  + (Spec.count (Spec.in_bucket ty (15, 18)) l
  + (Spec.count (Spec.in_bucket ty (18, 22)) l
  + (Spec.count (Spec.in_bucket ty (22, 24)) l + 0))))))
  = Spec.count (in_day ty) l.
Proof.
  induction l as [|i l IH]; [done|]. rewrite !count_cons, <- IH.
  assert (one (Spec.in_bucket ty (0, 4) i) + one (Spec.in_bucket ty (4, 9) i)
          + one (Spec.in_bucket ty (9, 12) i) + one (Spec.in_bucket ty (12, 15) i)
          + one (Spec.in_bucket ty (15, 18) i) + one (Spec.in_bucket ty (18, 22) i)
          + one (Spec.in_bucket ty (22, 24) i) = one (in_day ty i)); [|lia].
  unfold Spec.in_bucket, in_day.
  destruct (JS.truthy (time i) && String.eqb (type i) ty); cbn [andb fst snd]; [|done].
  destruct (Engine.hour i) as [n|]; [|done].
  destruct (hours n) as [H|[H|[H|[H|[H|[H|[H|[H|H]]]]]]]]; settle; done.
Qed.

Lemma on_radar_split l :
  Spec.count (in_day "Enemy Action") l + Spec.count (in_day "Explosive Hazard") l
  = Spec.count (fun i => Spec.on_radar i && JS.in_range (Engine.hour i) 0 24) l.
Proof.
  induction l as [|i l IH]; [done|]. rewrite !count_cons, <- IH.
  assert (one (in_day "Enemy Action" i) + one (in_day "Explosive Hazard" i)
          = one (Spec.on_radar i && JS.in_range (Engine.hour i) 0 24)); [|lia].
  unfold in_day, Spec.on_radar. destruct (JS.truthy (time i)); [|done].
  destruct (String.eqb_spec (type i) "Enemy Action") as [E|_].
  - rewrite E. simpl. destruct (JS.in_range _ _ _); done.
  - simpl. destruct (_ =? _)%string, (JS.in_range _ _ _); done.
Qed.

(** C5, as amended.  [getRadarData] counts, under each of the seven
    labels of either histogram, the records of that histogram's type
    that have a time whose hour lies in the label's bucket; the seven
    labels come first, in their fixed order.  The fourteen counts add up
    to the number of records that have one of the two types, a time,
    and an hour from 0 to 23. *)
Theorem C5_radar_buckets (this : DP.t) :
  let all := DP.allIncidents this in
  let r := DP.getRadarData this in
  Spec.seven (Engine.enemy r)
  = map (fun b => Some (JS.Num (Spec.count (Spec.in_bucket "Enemy Action" b) all)))
        Spec.buckets
  /\ Spec.seven (Engine.explosive r)
     = map (fun b => Some (JS.Num (Spec.count (Spec.in_bucket "Explosive Hazard" b) all)))
           Spec.buckets
  /\ take 7 (Engine.categories (Engine.enemy r)) = Engine.labels
  /\ take 7 (Engine.categories (Engine.explosive r)) = Engine.labels
  /\ JS.add (Spec.seven_total (Engine.enemy r))
            (Spec.seven_total (Engine.explosive r))
     = JS.Num (Spec.count
                 (fun i => Spec.on_radar i && JS.in_range (Engine.hour i) 0 24)
                 all).
Proof.
  cbv zeta. unfold DP.getRadarData, Engine.getRadarData.
  change Engine.radar_init with (table 0 0 0 0 0 0 0 false).
  rewrite radar_fold, !hist_fold. cbn [Engine.enemy Engine.explosive].
  rewrite !table_seven, !table_categories, !table_seven_total, !Z.add_0_l.
  split_and!; try done.
  cbn [JS.add]. by rewrite !buckets_split, on_radar_split.
Qed.

(** C5, as stated, fails on a time whose hour is in no bucket: the
    record has a time and the type of the first histogram, no count of
    the seven moves, and an eighth entry appears under the empty label. *)
Lemma C5_hour_in_no_bucket :
  let st := DP.loadData HostDate.iso_date
              [ {[ "date_time_occ" := "2007-12-05 24:00:00";
                   "Incident Type" := "Enemy Action" ]} ] None in
  let r := DP.getRadarData st in
  Spec.count Spec.on_radar (DP.allIncidents st) = 1
  /\ JS.add (Spec.seven_total (Engine.enemy r))
            (Spec.seven_total (Engine.explosive r)) = JS.Num 0
  /\ Engine.categories (Engine.enemy r) = Engine.labels ++ [""]
  /\ Engine.values (Engine.enemy r)
     = [JS.Num 0; JS.Num 0; JS.Num 0; JS.Num 0; JS.Num 0; JS.Num 0; JS.Num 0;
        JS.NaN].
Proof. split_and!; vm_compute; reflexivity. Qed.

End Radar.

(** ** Loops over plain objects *)

Module Loops.

Lemma get_set_same {V} (m : list (string * V)) k v :
  Assoc.get (Assoc.set m k v) k = Some v.
Proof.
  induction m as [|[k' v'] m IH]; simpl.
  - by rewrite String.eqb_refl.
  - destruct (String.eqb k' k) eqn:E; simpl; by rewrite E.
Qed.

Lemma for_of_returns {A S} (body : S -> A -> outcome S) l :
  (forall s a, a ∈ l -> exists s', body s a = Returns s') ->
  forall s, exists s', for_of body s l = Returns s'.
Proof.
  induction l as [|a l IH]; intros H s; simpl; [by eauto|].
  destruct (H s a) as [s' ->]; [apply list_elem_of_here|]. simpl.
  apply IH. intros. apply H. by apply list_elem_of_further.
Qed.

(** A loop whose state is a function of the elements seen so far. *)
Lemma for_of_closed {A S} (body : S -> A -> outcome S) (T : list A -> S) l :
  (forall pre a, a ∈ l -> body (T pre) a = Returns (T (pre ++ [a]))) ->
  forall pre, for_of body (T pre) l = Returns (T (pre ++ l)).
Proof.
  induction l as [|a l IH]; intros H pre; simpl.
  - by rewrite app_nil_r.
  - rewrite H by apply list_elem_of_here. simpl.
    rewrite IH; [by rewrite <- app_assoc|].
    intros. apply H. by apply list_elem_of_further.
Qed.

Lemma tally_returns t a b :
  Obj.inherited a = false -> exists t', Engine.tally t a b = Returns t'.
Proof.
  intros Ha. unfold Engine.tally, Obj.get. rewrite Ha.
  destruct (Assoc.get t a) eqn:E.
  - rewrite E. by eauto.
  - rewrite get_set_same. by eauto.
Qed.

(** The names a plain object inherits have no hyphen, so a date that is
    one of them is its own year part. *)
Lemma inherited_year d : Obj.inherited d = true -> DP.year_of d = d.
Proof.
  unfold Obj.inherited, Obj.inherited_function.
  intros [H|H]%orb_true_iff.
  - apply bool_decide_eq_true in H.
    repeat (apply elem_of_cons in H as [->|H]; [done|]).
    by apply elem_of_nil in H.
  - by apply String.eqb_eq in H as ->.
Qed.

Lemma plain_year d :
  Obj.inherited (DP.year_of d) = false -> Obj.inherited d = false.
Proof.
  intros H. destruct (Obj.inherited d) eqn:E; [|done].
  by rewrite (inherited_year _ E), E in H.
Qed.

End Loops.

(** ** The heat map *)

Module Heatmap.
Import Data Views Table.

Lemma count_snoc p l i :
  Spec.count p (l ++ [i]) = Spec.count p l + (if p i then 1 else 0).
Proof.
  unfold Spec.count. rewrite List.filter_app, length_app. simpl.
  destruct (p i); simpl; lia.
Qed.

Lemma count_on_date_snoc d l i :
  Spec.count (Spec.on_date d) (l ++ [i])
  = Spec.count (Spec.on_date d) l + (if String.eqb (date i) d then 1 else 0).
Proof. apply count_snoc. Qed.

Lemma seen_snoc l i :
  seen (l ++ [i]) = if JS.truthy (date i) then JS.set_add (seen l) (date i) else seen l.
Proof.
  unfold seen. rewrite map_app, List.filter_app. simpl.
  destruct (JS.truthy (date i)).
  - apply JSFacts.unique_snoc.
  - by rewrite app_nil_r.
Qed.

Lemma elem_of_seen l d : d ∈ seen l <-> JS.truthy d = true /\ d ∈ map date l.
Proof.
  unfold seen. rewrite JSFacts.elem_of_unique, !list_elem_of_In, filter_In. tauto.
Qed.

Lemma count_unseen l d : d ∉ map date l -> Spec.count (Spec.on_date d) l = 0.
Proof.
  intros H. unfold Spec.count, Spec.on_date.
  fold (Views.bucket_of l d). by rewrite Load.bucket_of_unseen.
Qed.

Lemma or_zero n :
  (if JS.truthy_number (JS.Num n) then JS.Num n else JS.Num 0) = JS.Num n.
Proof. simpl. by destruct (Z.eqb_spec n 0) as [->|]. Qed.

(** One round of the counting loop. *)
Lemma count_round pre i :
  Obj.inherited (date i) = false ->
  (if negb (JS.truthy (date i)) then Returns (counts pre)
   else DP.count_date (counts pre) (date i))
  = Returns (counts (pre ++ [i])).
Proof.
  intros Hplain. unfold counts. rewrite seen_snoc.
  destruct (JS.truthy (date i)) eqn:Ht; cbn [negb].
  - unfold DP.count_date.
    pose proof (JSFacts.NoDup_unique (List.filter JS.truthy (map date pre))) as Hnd.
    fold (seen pre) in Hnd.
    destruct (decide (date i ∈ seen pre)) as [Hin|Hnin].
    + rewrite (obj_get_in _ _ _ Hin), or_zero. cbn [JS.succ].
      rewrite set_tab by done. f_equal. apply tab_ext. intros d Hd.
      rewrite count_on_date_snoc.
      destruct (String.eqb_spec (date i) d) as [E|Hne].
      * subst d. by rewrite upd_same.
      * rewrite upd_other by done. by rewrite Z.add_0_r.
    + rewrite (obj_get_notin _ _ _ Hnin Hplain).
      rewrite set_tab by done. f_equal. apply tab_ext. intros d Hd.
      rewrite count_on_date_snoc.
      destruct (String.eqb_spec (date i) d) as [E|Hne].
      * subst d. rewrite upd_same, count_unseen; [done|].
        intros H. apply Hnin. by apply elem_of_seen.
      * rewrite upd_other by done. by rewrite Z.add_0_r.
  - f_equal. apply tab_ext. intros d Hd. rewrite count_on_date_snoc.
    destruct (String.eqb_spec (date i) d) as [E|Hne].
    + apply elem_of_seen in Hd as [Hd _]. congruence.
    + by rewrite Z.add_0_r.
Qed.

Lemma count_loop l :
  Forall (fun i => Obj.inherited (date i) = false) l ->
  for_of (fun dateCounts i =>
            if negb (JS.truthy (date i)) then Returns dateCounts
            else DP.count_date dateCounts (date i)) [] l
  = Returns (counts l).
Proof.
  intros H. change [] with (counts []) at 1.
  rewrite (Loops.for_of_closed _ counts); [done|].
  intros pre i Hi. apply count_round. by eapply Forall_forall in H.
Qed.

(** The last loop. *)
Lemma read_loop (t : list (string * JS.number)) (g : string -> JS.number) l :
  (forall d, d ∈ l -> DP.read_count t d = Returns (g d)) ->
  forall ds cs,
    for_of (fun (r : list string * list JS.number) d =>
              c ← DP.read_count t d; Returns (r.1 ++ [d], r.2 ++ [c]))
           (ds, cs) l
    = Returns (ds ++ l, cs ++ map g l).
Proof.
  induction l as [|d l IH]; intros H ds cs; simpl.
  - by rewrite !app_nil_r.
  - rewrite H by apply list_elem_of_here. simpl.
    rewrite IH; [by rewrite <- !app_assoc|].
    intros. apply H. by apply list_elem_of_further.
Qed.

Lemma read_counts l d :
  d ∈ seen l ->
  DP.read_count (counts l) d = Returns (JS.Num (Spec.count (Spec.on_date d) l)).
Proof.
  intros H. unfold DP.read_count, counts.
  by rewrite (obj_get_in _ _ _ H), or_zero.
Qed.

Lemma elem_of_heat_dates l d :
  d ∈ heat_dates l <-> JS.truthy d = true /\ d ∈ map date l.
Proof.
  unfold heat_dates.
  rewrite JSFacts.elem_of_sort, JSFacts.elem_of_unique, JSFacts.elem_of_sort.
  rewrite !list_elem_of_In, filter_In. tauto.
Qed.

Lemma heatmap_returns this :
  Forall (fun i => Obj.inherited (DP.year_of (date i)) = false)
         (DP.allIncidents this) ->
  DP.getHeatmapData this
  = Returns
      {| DP.hm_dates := heat_dates (DP.allIncidents this);
         DP.hm_counts :=
           map (fun d => JS.Num (Spec.count (Spec.on_date d) (DP.allIncidents this)))
               (heat_dates (DP.allIncidents this)) |}.
Proof.
  intros H. unfold DP.getHeatmapData.
  set (all := DP.allIncidents this) in *.
  edestruct (Loops.for_of_returns
    (fun yearlyData i =>
       if negb (JS.truthy (date i)) then Returns yearlyData
       else Engine.tally yearlyData (DP.year_of (date i)) (date i)) all) as [t ->].
  { intros s i Hi. destruct (negb _); [by eauto|].
    apply Loops.tally_returns. by eapply Forall_forall in H. }
  cbn [mbind outcome_bind]. rewrite count_loop.
  2:{ eapply Forall_impl; [exact H|]. intros i. apply Loops.plain_year. }
  cbn [mbind outcome_bind]. fold (heat_dates all).
  rewrite (read_loop _ (fun d => JS.Num (Spec.count (Spec.on_date d) all))).
  - done.
  - intros d [Hd Hin]%elem_of_heat_dates. apply read_counts.
    by apply elem_of_seen.
Qed.

Lemma truthy_nonempty d : JS.truthy d = true <-> d <> "".
Proof. by destruct d. Qed.

Lemma count_seen l d : d ∈ map date l -> 1 <= Spec.count (Spec.on_date d) l.
Proof.
  induction l as [|i l IH]; [by intros ?%elem_of_nil|].
  intros Hd. rewrite Radar.count_cons. unfold Spec.on_date at 1, Views.one.
  destruct (String.eqb_spec (date i) d) as [E|Hne].
  - unfold Spec.count. lia.
  - apply elem_of_cons in Hd as [Hd|Hd]; [done|]. specialize (IH Hd). lia.
Qed.

Lemma total_counts (g : string -> nat) ks :
  Spec.total (map (fun d => JS.Num (Z.of_nat (g d))) ks)
  = JS.Num (Z.of_nat (sum_list_with g ks)).
Proof.
  unfold Spec.total. induction ks as [|k ks IH]; [done|]. cbn [map foldr].
  rewrite IH. cbn [JS.add sum_list_with]. f_equal. lia.
Qed.

Lemma heat_total l :
  Spec.total (map (fun d => JS.Num (Spec.count (Spec.on_date d) l)) (heat_dates l))
  = JS.Num (Spec.count Spec.has_date l).
Proof.
  unfold Spec.count. rewrite (total_counts (fun d => length (List.filter (Spec.on_date d) l))).
  do 2 f_equal.
  rewrite <- (Counting.groups_add_up date (List.filter Spec.has_date l) (heat_dates l)).
  - apply Counting.sum_ext. intros d [Hd _]%elem_of_heat_dates.
    rewrite Lookup.filter_twice. f_equal. apply List.filter_ext. intros i.
    unfold Spec.has_date, Spec.on_date. destruct (String.eqb_spec (date i) d) as [->|_].
    + by rewrite Hd.
    + by rewrite andb_false_r.
  - unfold heat_dates. apply JSFacts.NoDup_sort, JSFacts.NoDup_unique.
  - intros i [Hi Ht]%list_elem_of_In%filter_In. apply elem_of_heat_dates.
    split; [done|]. by apply list_elem_of_In, in_map.
Qed.

(** C2, as amended.  In [src/data-processor.js], provided no record's
    date begins, up to its first hyphen, with the name of a member of
    [Object.prototype], [getHeatmapData] returns the distinct non-empty
    dates of the records, each once, and beside each date the number of
    records of that date, which is at least one; the counts add up to
    the number of records with a non-empty date; and the dates are in
    strictly ascending calendar order when every one of them is in the
    form [YYYY-MM-DD].  In the revised class the records are not
    counted: the result is the [dates] and the [counts] of the heat-map
    document when one was loaded and is truthy, and two empty sequences
    otherwise. *)
Theorem C2_heatmap_counts (this : DP.t)
    (rows : list (gmap string string)) (b h : option Json.json) :
  let all := DP.allIncidents this in
  (Forall (fun i => Obj.inherited (DP.year_of (date i)) = false) all ->
   exists hm,
     DP.getHeatmapData this = Returns hm
     /\ NoDup (DP.hm_dates hm)
     /\ (forall d, d ∈ DP.hm_dates hm <-> d <> "" /\ d ∈ map date all)
     /\ DP.hm_counts hm
        = map (fun d => JS.Num (Spec.count (Spec.on_date d) all)) (DP.hm_dates hm)
     /\ Forall (fun d => 1 <= Spec.count (Spec.on_date d) all) (DP.hm_dates hm)
     /\ Spec.total (DP.hm_counts hm) = JS.Num (Spec.count Spec.has_date all)
     /\ (Forall (fun d => Spec.is_ymd d = true) (DP.hm_dates hm) ->
         Spec.ascending_by_calendar (DP.hm_dates hm)))
  /\ DP2.getHeatmapData (DP2.loadData rows b h)
     = match h with
       | Some doc =>
           if Json.truthy doc then
             {| DP2.hm_dates := Json.member doc "dates";
                DP2.hm_counts := Json.member doc "counts" |}
           else
             {| DP2.hm_dates := Some (Json.JArray []);
                DP2.hm_counts := Some (Json.JArray []) |}
       | None =>
           {| DP2.hm_dates := Some (Json.JArray []);
              DP2.hm_counts := Some (Json.JArray []) |}
       end.
Proof.
  cbv zeta. split.
  2: { rewrite Load.dp2_loaded. unfold DP2.getHeatmapData.
       cbn [DP2.heatmapData]. by destruct h as [doc|]. }
  intros H. eexists. split; [by apply heatmap_returns|].
  cbn [DP.hm_dates DP.hm_counts].
  assert (NoDup (heat_dates (DP.allIncidents this))) as Hnd.
  { unfold heat_dates. apply JSFacts.NoDup_sort, JSFacts.NoDup_unique. }
  assert (Spec.ascending_as_strings (heat_dates (DP.allIncidents this))) as Hasc.
  { unfold heat_dates. apply JSFacts.sort_ascending, JSFacts.NoDup_unique. }
  split_and!; try done.
  - intros d. by rewrite elem_of_heat_dates, truthy_nonempty.
  - apply Forall_forall. intros d [_ Hd]%elem_of_heat_dates. by apply count_seen.
  - apply heat_total.
  - intros Hc. by apply Dates.strings_calendar.
Qed.

Lemma C2_witness :
  exists hm,
    DP.getHeatmapData
      (DP.loadData HostDate.iso_date
         [ {[ "date_time_occ" := "2008-01-02 09:00:00" ]};
           {[ "date_time_occ" := "2007-12-05 10:30:00" ]};
           {[ "date_time_occ" := "2008-01-02 23:10:00" ]} ] None)
    = Returns hm
    /\ DP.hm_dates hm = ["2007-12-05"; "2008-01-02"]
    /\ DP.hm_counts hm = [JS.Num 1; JS.Num 2].
Proof.
  destruct (proj1 (C2_heatmap_counts
    (DP.loadData HostDate.iso_date
       [ {[ "date_time_occ" := "2008-01-02 09:00:00" ]};
         {[ "date_time_occ" := "2007-12-05 10:30:00" ]};
         {[ "date_time_occ" := "2008-01-02 23:10:00" ]} ] None) [] None None))
    as (hm & Hhm & _).
  - vm_compute. repeat constructor.
  - exists hm. split; [exact Hhm|].
    vm_compute in Hhm. injection Hhm as <-. split; reflexivity.
Defined.

(** C2, as stated, fails.  In [src/data-processor.js] the dates are
    sorted as strings and are the date parts as they stand: here the
    fifth of December 2007 is listed before the first of February 2007.
    In the revised class no record is counted. *)
Lemma C2_string_order_and_no_count :
  let rows := [ {[ "date_time_occ" := "2/1/2007 10:30:00" ]};
                {[ "date_time_occ" := "12/5/2007 09:00:00" ]} ] in
  DP.getHeatmapData (DP.loadData HostDate.iso_date rows None)
  = Returns {| DP.hm_dates := ["12/5/2007"; "2/1/2007"];
               DP.hm_counts := [JS.Num 1; JS.Num 1] |}
  /\ Spec.before "12/5/2007" "2/1/2007" = false
  /\ Spec.before "2/1/2007" "12/5/2007" = true
  /\ DP2.getHeatmapData (DP2.loadData rows None None)
     = {| DP2.hm_dates := Some (Json.JArray []);
          DP2.hm_counts := Some (Json.JArray []) |}
  /\ Spec.count Spec.has_date (DP2.allIncidents (DP2.loadData rows None None)) = 2.
Proof. split_and!; vm_compute; reflexivity. Qed.

End Heatmap.

(** ** The tree map *)

Module Treemap.
Import Data Views Table.

Lemma upd_upd {V} (f : string -> V) k v v' k' :
  upd (upd f k v) k v' k' = upd f k v' k'.
Proof. unfold upd. by destruct (String.eqb k' k). Qed.

(** [if (!o[b]) o[b] = 0; o[b]++] on a table of counts. *)
Lemma inner_round cs (n : string -> Z) b :
  NoDup cs -> Obj.inherited b = false ->
  Obj.increment (Obj.init_zero (tab cs (fun c => JS.Num (n c))) b) b
  = tab (JS.set_add cs b)
        (upd (fun c => JS.Num (n c)) b
             (JS.Num ((if bool_decide (b ∈ cs) then n b else 0) + 1))).
Proof.
  intros Hnd Hb. unfold Obj.init_zero.
  destruct (decide (b ∈ cs)) as [Hin|Hnin].
  - rewrite bool_decide_eq_true_2 by done.
    rewrite (obj_get_in _ _ _ Hin). cbn [JS.truthy_number].
    destruct (Z.eqb_spec (n b) 0) as [E|_]; cbn [negb].
    + rewrite set_tab by done. unfold Obj.increment.
      rewrite obj_get_in by (apply JSFacts.elem_of_set_add; by right).
      rewrite upd_same, set_tab by (by apply JSFacts.NoDup_set_add).
      rewrite Load.set_add_idem, E. apply tab_ext. intros. apply upd_upd.
    + unfold Obj.increment. rewrite (obj_get_in _ _ _ Hin).
      by rewrite set_tab.
  - rewrite bool_decide_eq_false_2 by done.
    rewrite (obj_get_notin _ _ _ Hnin Hb), set_tab by done.
    unfold Obj.increment.
    rewrite obj_get_in by (apply JSFacts.elem_of_set_add; by right).
    rewrite upd_same, set_tab by (by apply JSFacts.NoDup_set_add).
    rewrite Load.set_add_idem. apply tab_ext. intros. apply upd_upd.
Qed.

Lemma cats_snoc_same pre i :
  cats (type i) (pre ++ [i]) = JS.set_add (cats (type i) pre) (category i).
Proof.
  unfold cats. rewrite List.filter_app. simpl. unfold Spec.type_is at 2.
  rewrite String.eqb_refl. apply JSFacts.unique_map_snoc.
Qed.

Lemma filter_snoc_other pre i t :
  type i <> t ->
  List.filter (Spec.type_is t) (pre ++ [i]) = List.filter (Spec.type_is t) pre.
Proof.
  intros H. rewrite List.filter_app. simpl. unfold Spec.type_is at 2.
  apply String.eqb_neq in H as ->. by rewrite app_nil_r.
Qed.

Lemma pair_snoc pre i t c :
  Spec.count (Spec.pair_is t c) (pre ++ [i])
  = Spec.count (Spec.pair_is t c) pre
    + (if String.eqb (type i) t && String.eqb (category i) c then 1 else 0).
Proof. apply Heatmap.count_snoc. Qed.

Lemma pair_unseen pre t c :
  c ∉ cats t pre -> Spec.count (Spec.pair_is t c) pre = 0.
Proof.
  intros H. unfold Spec.count.
  rewrite (List.filter_ext _ (fun i => Spec.type_is t i && String.eqb (category i) c))
    by done.
  rewrite <- Lookup.filter_twice, Counting.filter_unseen; [done|].
  intros Hc. apply H. by apply JSFacts.elem_of_unique.
Qed.

Lemma inner_snoc_same pre i :
  Obj.inherited (category i) = false ->
  Obj.increment (Obj.init_zero (inner pre (type i)) (category i)) (category i)
  = inner (pre ++ [i]) (type i).
Proof.
  intros Hb. unfold inner.
  rewrite inner_round by (done || apply JSFacts.NoDup_unique).
  rewrite cats_snoc_same. apply tab_ext. intros c Hc. rewrite pair_snoc.
  rewrite String.eqb_refl. cbn [andb].
  destruct (String.eqb_spec (category i) c) as [E|Hne].
  - subst c. rewrite upd_same. f_equal.
    destruct (decide (category i ∈ cats (type i) pre)) as [Hin|Hnin].
    + by rewrite bool_decide_eq_true_2.
    + rewrite bool_decide_eq_false_2 by done. by rewrite pair_unseen.
  - rewrite upd_other by done. by rewrite Z.add_0_r.
Qed.

Lemma inner_snoc_other pre i t :
  type i <> t -> inner (pre ++ [i]) t = inner pre t.
Proof.
  intros H. unfold inner, cats. rewrite (filter_snoc_other _ _ _ H).
  apply tab_ext. intros c _. rewrite pair_snoc.
  apply String.eqb_neq in H as ->. by rewrite Z.add_0_r.
Qed.

Lemma inner_unseen pre t : t ∉ JS.unique (map type pre) -> inner pre t = [].
Proof.
  intros H. unfold inner, cats. unfold Spec.type_is.
  rewrite Counting.filter_unseen; [done|].
  intros Ht. apply H. by apply JSFacts.elem_of_unique.
Qed.

(** One round of the loop of [getTreemapData]. *)
Lemma tally_round pre i :
  Spec.plain i ->
  Engine.tally (outer pre) (type i) (category i) = Returns (outer (pre ++ [i])).
Proof.
  intros [Ha Hb]. unfold Engine.tally, outer.
  pose proof (JSFacts.NoDup_unique (map type pre)) as Hnd.
  rewrite JSFacts.unique_map_snoc.
  set (ks := JS.unique (map type pre)) in *.
  destruct (decide (type i ∈ ks)) as [Hin|Hnin].
  - rewrite (obj_get_in _ _ _ Hin). rewrite (obj_get_in _ _ _ Hin).
    rewrite inner_snoc_same, set_tab by done. f_equal.
    apply tab_ext. intros t Ht.
    destruct (String.eqb_spec t (type i)) as [->|Hne].
    + by rewrite upd_same.
    + rewrite upd_other by done. symmetry. by apply inner_snoc_other.
  - rewrite (obj_get_notin _ _ _ Hnin Ha), set_tab by done.
    rewrite obj_get_in by (apply JSFacts.elem_of_set_add; by right).
    rewrite upd_same, set_tab by (by apply JSFacts.NoDup_set_add).
    rewrite Load.set_add_idem. f_equal. apply tab_ext. intros t Ht.
    rewrite upd_upd. destruct (String.eqb_spec t (type i)) as [->|Hne].
    + rewrite upd_same, <- (inner_unseen pre (type i)) by done.
      by apply inner_snoc_same.
    + rewrite upd_other by done. symmetry. by apply inner_snoc_other.
Qed.

Lemma treemapData_outer all :
  Forall Spec.plain all -> Engine.treemapData all = Returns (outer all).
Proof.
  intros H. unfold Engine.treemapData. change [] with (outer []) at 1.
  rewrite (Loops.for_of_closed _ outer); [done|].
  intros pre i Hi. apply tally_round. by eapply Forall_forall in H.
Qed.

Lemma series_of_outer all : Engine.series_of (outer all) = Spec.treemap all.
Proof.
  unfold Engine.series_of, outer, Spec.treemap, Spec.treemap_by.
  rewrite enumerate_tab. unfold tab at 1. rewrite map_map.
  apply map_ext. intros t. cbn [fst snd]. f_equal.
  unfold inner. rewrite enumerate_tab. unfold tab. by rewrite map_map.
Qed.

(** The counts add up. *)
Lemma total_app_counts {A} (h : A -> nat) cs rest r :
  Spec.total rest = JS.Num (Z.of_nat r) ->
  Spec.total (map (fun c => JS.Num (Z.of_nat (h c))) cs ++ rest)
  = JS.Num (Z.of_nat (sum_list_with h cs + r)).
Proof.
  unfold Spec.total. intros Hr. induction cs as [|c cs IH]; [done|].
  cbn [map app foldr sum_list_with]. rewrite IH. cbn [JS.add]. f_equal. lia.
Qed.

Lemma total_groups {A B} (g : A -> B -> nat) (cs : A -> list B) ts :
  Spec.total
    (concat (map (fun t => map (fun c => JS.Num (Z.of_nat (g t c))) (cs t)) ts))
  = JS.Num (Z.of_nat (sum_list_with (fun t => sum_list_with (g t) (cs t)) ts)).
Proof.
  induction ts as [|t ts IH]; [done|].
  cbn [map concat sum_list_with]. by apply total_app_counts.
Qed.

Lemma counts_of_treemap all :
  Spec.counts_of (Spec.treemap all)
  = concat (map (fun t =>
                   map (fun c => JS.Num (Z.of_nat
                                   (length (List.filter (Spec.pair_is t c) all))))
                       (Obj.key_order (cats t all)))
                (Obj.key_order (JS.unique (map type all)))).
Proof.
  unfold Spec.counts_of, Spec.treemap, Spec.treemap_by. rewrite map_map.
  f_equal. apply map_ext. intros t. cbn [Engine.data]. by rewrite map_map.
Qed.

Lemma treemap_total all :
  Spec.total (Spec.counts_of (Spec.treemap all)) = JS.Num (Z.of_nat (length all)).
Proof.
  rewrite counts_of_treemap, total_groups. do 2 f_equal.
  rewrite <- (Counting.groups_add_up type all (Obj.key_order (JS.unique (map type all)))).
  - apply Counting.sum_ext. intros t _.
    transitivity (length (List.filter (Spec.type_is t) all)); [|done].
    rewrite <- (Counting.groups_add_up category
                  (List.filter (Spec.type_is t) all) (Obj.key_order (cats t all))).
    + apply Counting.sum_ext. intros c _. by rewrite Lookup.filter_twice.
    + rewrite key_order_Permutation. apply JSFacts.NoDup_unique.
    + intros i Hi. rewrite key_order_Permutation. apply JSFacts.elem_of_unique.
      apply list_elem_of_In, in_map. by apply list_elem_of_In.
  - rewrite key_order_Permutation. apply JSFacts.NoDup_unique.
  - intros i Hi. rewrite key_order_Permutation. apply JSFacts.elem_of_unique.
    apply list_elem_of_In, in_map. by apply list_elem_of_In.
Qed.

(** Without index keys the listing order is the first-seen order. *)
Lemma unique_Forall (Q : string -> Prop) l : Forall Q l -> Forall Q (JS.unique l).
Proof.
  rewrite !Forall_forall. intros H x Hx. apply H. by apply JSFacts.elem_of_unique.
Qed.

Lemma treemap_plain_order all :
  Forall (fun i => Obj.is_index (type i) = false
                   /\ Obj.is_index (category i) = false) all ->
  Spec.treemap all = Spec.treemap_first_seen all.
Proof.
  intros H. unfold Spec.treemap, Spec.treemap_first_seen, Spec.treemap_by.
  rewrite key_order_plain.
  2:{ apply unique_Forall, Forall_forall. intros t (i & <- & Hi)%list_elem_of_In%in_map_iff.
      apply list_elem_of_In in Hi. by eapply Forall_forall in H as [? _]. }
  apply map_ext. intros t. f_equal. rewrite key_order_plain; [done|].
  apply unique_Forall, Forall_forall.
  intros c (i & <- & [Hi _]%filter_In)%list_elem_of_In%in_map_iff.
  apply list_elem_of_In in Hi. by eapply Forall_forall in H as [_ ?].
Qed.

(** C6, as amended.  Provided no record's type or category is the name
    of a member of [Object.prototype], [getTreemapData] counts every
    loaded record once under its type and category and returns one group
    per type and, in a group, one pair per category seen with that type,
    with the number of records of that type and category; the counts of
    all pairs add up to the length of the record list.  Groups, and the
    pairs of a group, are listed as a Spec.plain object lists its keys: those
    that are array indices first, in ascending numeric order, then the
    others in first-seen order; when no type and no category is an array
    index that is the first-seen order. *)
Theorem C6_treemap_counts (this : DP.t) :
  let all := DP.allIncidents this in
  Forall Spec.plain all ->
  DP.getTreemapData this = Returns (Spec.treemap all)
  /\ Spec.total (Spec.counts_of (Spec.treemap all))
     = JS.Num (Z.of_nat (length all))
  /\ (Forall (fun i => Obj.is_index (type i) = false
                       /\ Obj.is_index (category i) = false) all ->
      Spec.treemap all = Spec.treemap_first_seen all).
Proof.
  cbv zeta. intros H. split_and!.
  - unfold DP.getTreemapData, Engine.getTreemapData.
    rewrite treemapData_outer by done. cbn [mbind outcome_bind].
    by rewrite series_of_outer.
  - apply treemap_total.
  - apply treemap_plain_order.
Qed.

Lemma C6_witness :
  DP.getTreemapData
    (DP.loadData HostDate.iso_date
       [ {[ "Incident Type" := "Enemy Action"; "Incident Category" := "Direct Fire" ]};
         {[ "Incident Type" := "Explosive Hazard"; "Incident Category" := "IED Found/Cleared" ]};
         {[ "Incident Type" := "Enemy Action"; "Incident Category" := "IED Explosion" ]};
         {[ "Incident Type" := "Enemy Action"; "Incident Category" := "Direct Fire" ]} ]
       None)
  = Returns
      [ {| Engine.name := "Enemy Action";
           Engine.data := [ {| Engine.x := "Direct Fire"; Engine.y := JS.Num 2 |};
                            {| Engine.x := "IED Explosion"; Engine.y := JS.Num 1 |} ] |};
        {| Engine.name := "Explosive Hazard";
           Engine.data := [ {| Engine.x := "IED Found/Cleared"; Engine.y := JS.Num 1 |} ] |} ].
Proof.
  refine (eq_trans (proj1 (C6_treemap_counts
    (DP.loadData HostDate.iso_date
       [ {[ "Incident Type" := "Enemy Action"; "Incident Category" := "Direct Fire" ]};
         {[ "Incident Type" := "Explosive Hazard"; "Incident Category" := "IED Found/Cleared" ]};
         {[ "Incident Type" := "Enemy Action"; "Incident Category" := "IED Explosion" ]};
         {[ "Incident Type" := "Enemy Action"; "Incident Category" := "Direct Fire" ]} ]
       None) _)) _).
  - vm_compute. repeat constructor.
  - vm_compute. reflexivity.
Defined.

(** C6, as stated, fails on types that are array indices: the group of
    type ["1"] comes before the group of type ["2"], which was seen
    first. *)
Lemma C6_index_keys_first :
  let st := DP.loadData HostDate.iso_date
              [ {[ "Incident Type" := "2"; "Incident Category" := "b" ]};
                {[ "Incident Type" := "1"; "Incident Category" := "a" ]} ] None in
  DP.getTreemapData st
  = Returns
      [ {| Engine.name := "1";
           Engine.data := [ {| Engine.x := "a"; Engine.y := JS.Num 1 |} ] |};
        {| Engine.name := "2";
           Engine.data := [ {| Engine.x := "b"; Engine.y := JS.Num 1 |} ] |} ]
  /\ map Engine.name (Spec.treemap_first_seen (DP.allIncidents st)) = ["2"; "1"].
Proof. split; vm_compute; reflexivity. Qed.

(** ** Totality *)

(** [getDates], [getMetadata], [getIncidents], [getRadarData] and
    [getBoundary] read fields, filter, sort and count over a fixed
    table, and [getHeatmapData] of the revised class reads two members
    of a truthy value.  [getTreemapData] and [getHeatmapData] of
    [src/data-processor.js] count in plain objects, under keys taken
    from the records. *)

(** C9 fails on this input.  The record's type names a member of
    [Object.prototype], so the table's entry for it is the built-in
    [Object]; its category names the read-only [name] of that function,
    and the increment throws. *)
Theorem C9_treemap_throws :
  DP.getTreemapData
    (DP.loadData HostDate.iso_date
       [ {[ "date_time_occ" := "2007-12-05 10:30:00";
            "Incident Type" := "constructor";
            "Incident Category" := "name" ]} ] None)
  = Throws.
Proof. vm_compute. reflexivity. Qed.

End Treemap.

(** * Part V: further properties of the code *)

(** ** The metadata sets *)

Module Metadata.
Import Data.

Lemma sorted_set (f : incident -> string) incs v :
  Spec.ascending_as_strings (JS.sort (JS.unique (map f incs)))
  /\ (v ∈ JS.sort (JS.unique (map f incs)) <-> exists i, i ∈ incs /\ f i = v).
Proof.
  split.
  - apply JSFacts.sort_ascending, JSFacts.NoDup_unique.
  - rewrite JSFacts.elem_of_sort, JSFacts.elem_of_unique, list_elem_of_In, in_map_iff.
    split; intros (i & H1 & H2); exists i; split; try done; by apply list_elem_of_In.
Qed.

(** X1. After [loadData], each of the three sequences of [getMetadata]
    is in strictly ascending string order (so it has no duplicate), and
    holds exactly the values that the loaded records have in that
    field. *)
Theorem X1_metadata_sorted_exact (P : string -> JS.number)
    (rows : list (gmap string string)) (b : option Json.json) (v : string) :
  let st := DP.loadData P rows b in
  let m := DP.getMetadata st in
  Spec.ascending_as_strings (Engine.md_types m)
  /\ Spec.ascending_as_strings (Engine.md_categories m)
  /\ Spec.ascending_as_strings (Engine.md_provinces m)
  /\ (v ∈ Engine.md_types m
      <-> exists i, i ∈ DP.allIncidents st /\ type i = v)
  /\ (v ∈ Engine.md_categories m
      <-> exists i, i ∈ DP.allIncidents st /\ category i = v)
  /\ (v ∈ Engine.md_provinces m
      <-> exists i, i ∈ DP.allIncidents st /\ province i = v).
Proof.
  cbv zeta. rewrite Load.dp_loaded. unfold DP.getMetadata, Engine.getMetadata.
  cbn [DP.types DP.categories DP.provinces DP.allIncidents
       Engine.md_types Engine.md_categories Engine.md_provinces].
  split_and!; first [apply (sorted_set type _ v) | apply (sorted_set category _ v)
                    | apply (sorted_set province _ v)].
Qed.

End Metadata.

(** ** Dates and lookups together *)

Module Narrowing.
Import Data Views.

Lemma bucket_nonempty incs d :
  Views.bucket_of incs d <> [] <-> d ∈ map date incs.
Proof.
  split.
  - intros H. destruct (decide (d ∈ map date incs)) as [|Hn]; [done|].
    by rewrite Load.bucket_of_unseen in H.
  - intros (i & <- & Hi)%list_elem_of_In%in_map_iff Hb.
    assert (In i (Views.bucket_of incs (date i))) as Hin.
    { apply filter_In. split; [done|apply String.eqb_refl]. }
    rewrite Hb in Hin. done.
Qed.

(** X2. After [loadData], a date is listed by [getDates] exactly when
    [getIncidents] without filters finds records for it; for a date
    that is not listed, [getIncidents] returns the empty sequence
    whatever the filters. *)
Theorem X2_listed_iff_found (P : string -> JS.number)
    (rows : list (gmap string string)) (b : option Json.json)
    (d : string) (f : Filter.filters) :
  let st := DP.loadData P rows b in
  (d ∈ DP.getDates st <-> DP.getIncidents st d Filter.none <> [])
  /\ (d ∉ DP.getDates st -> DP.getIncidents st d f = []).
Proof.
  cbv zeta. rewrite Load.dp_loaded. unfold DP.getDates, DP.getIncidents.
  cbn [DP.dates DP.dateIndex].
  rewrite JSFacts.sort_by_Permutation, JSFacts.elem_of_unique.
  rewrite !Lookup.getIncidents_narrows, Load.index_get.
  split.
  - rewrite <- bucket_nonempty. cbn. by rewrite Lookup.filter_all.
  - intros H. rewrite Load.bucket_of_unseen; done.
Qed.

Lemma X2_witness :
  DP.getIncidents
    (DP.loadData HostDate.iso_date
       [ {[ "date_time_occ" := "2007-12-05 10:30:00" ]} ] None)
    "2008-01-02"
    {| Filter.type := Filter.Str "Enemy Action";
       Filter.category := Filter.Absent;
       Filter.province := Filter.Absent |}
  = [].
Proof.
  apply (proj2 (X2_listed_iff_found HostDate.iso_date
    [ {[ "date_time_occ" := "2007-12-05 10:30:00" ]} ] None "2008-01-02" _)).
  vm_compute. intros H. by repeat (apply elem_of_cons in H as [H|H]; [done|]);
    apply elem_of_nil in H.
Defined.

Lemma filter_sublist {A} (p : A -> bool) l : List.filter p l `sublist_of` l.
Proof.
  induction l as [|a l IH]; simpl; [constructor|].
  destruct (p a); by constructor.
Qed.

Lemma elem_of_narrowed idx d f r :
  r ∈ Engine.getIncidents idx d f
  <-> r ∈ default [] (Assoc.get idx d) /\ Spec.narrows Spec.left_out f r = true.
Proof. by rewrite Lookup.getIncidents_narrows, list_elem_of_In, filter_In, <- list_elem_of_In. Qed.

(** X3. Filters only remove records and compose as an intersection:
    the result of [getIncidents] is a subsequence of the result without
    filters, and a record is in it exactly when it is in each of the
    three results obtained with one of the filters alone.  So the order
    in which filters are given or applied does not matter. *)
Theorem X3_filters_intersect (this : DP.t) (d : string) (f : Filter.filters)
    (r : incident) :
  DP.getIncidents this d f `sublist_of` DP.getIncidents this d Filter.none
  /\ (r ∈ DP.getIncidents this d f
      <-> r ∈ DP.getIncidents this d (Notions.only_type f)
          /\ r ∈ DP.getIncidents this d (Notions.only_category f)
          /\ r ∈ DP.getIncidents this d (Notions.only_province f)).
Proof.
  unfold DP.getIncidents. split.
  - rewrite !Lookup.getIncidents_narrows.
    rewrite (Lookup.filter_all (Spec.narrows Spec.left_out Filter.none)) by done.
    apply filter_sublist.
  - rewrite !elem_of_narrowed. unfold Spec.narrows. cbn.
    rewrite !andb_true_r, !andb_true_iff. tauto.
Qed.

End Narrowing.

(** ** Timestamps *)

Module Timestamps.
Import Data.

Lemma includes_app c a b :
  JS.includes c (a +:+ b) = JS.includes c a || JS.includes c b.
Proof.
  induction a as [|x a IH]; [done|].
  change (String x a +:+ b) with (String x (a +:+ b)). cbn [JS.includes].
  by rewrite IH, orb_assoc.
Qed.

(** No part of a split holds the separator, and none holds a code unit
    that the string does not hold. *)
Lemma split_parts c sep s p :
  p ∈ JS.split sep s ->
  JS.includes sep p = false
  /\ (JS.includes c s = false -> JS.includes c p = false).
Proof.
  revert p. induction s as [|x s IH]; intros p; cbn [JS.split JS.includes].
  - by intros ->%list_elem_of_singleton.
  - destruct (Ascii.eqb x sep) eqn:E.
    + intros [->|Hp]%elem_of_cons; [done|].
      destruct (IH p Hp) as [H1 H2]. split; [done|].
      by intros [_ ?]%orb_false_iff; auto.
    + destruct (JS.split sep s) as [|q qs] eqn:Es.
      * intros ->%list_elem_of_singleton. cbn [JS.includes]. rewrite E.
        split; [done|]. by intros [-> _]%orb_false_iff.
      * intros [->|Hp]%elem_of_cons.
        -- destruct (IH q) as [H1 H2]; [apply list_elem_of_here|].
           cbn [JS.includes]. rewrite E, H1. split; [done|].
           intros [-> ?]%orb_false_iff. by rewrite H2.
        -- destruct (IH p) as [H1 H2]; [by apply list_elem_of_further|].
           split; [done|]. by intros [_ ?]%orb_false_iff; auto.
Qed.

Lemma split_app sep d t :
  JS.includes sep d = false ->
  JS.split sep (d +:+ String sep t) = d :: JS.split sep t.
Proof.
  induction d as [|x d IH].
  - intros _. change ("" +:+ String sep t) with (String sep t).
    cbn [JS.split]. by rewrite Ascii.eqb_refl.
  - change (String x d +:+ String sep t) with (String x (d +:+ String sep t)).
    cbn [JS.split JS.includes].
    intros [E H]%orb_false_iff. by rewrite E, (IH H).
Qed.

Lemma first_part_in sep s : default "" (JS.split sep s !! 0%nat) ∈ JS.split sep s.
Proof.
  destruct (JSFacts.split_cons sep s) as (p & ps & ->). apply list_elem_of_here.
Qed.

Lemma padStart2_includes c p :
  Ascii.eqb "0" c = false -> JS.includes c p = false ->
  JS.includes c (JS.padStart2 p) = false.
Proof.
  intros Hc Hp. destruct p as [|a [|b p]]; cbn [JS.padStart2 JS.includes] in *;
    by rewrite ?Hc, ?Hp.
Qed.

(** A rewritten date holds a code unit other than [0] and [-] only if
    the date part held it. *)
Lemma formattedDate_includes c raw :
  Ascii.eqb "0" c = false -> Ascii.eqb "-" c = false ->
  JS.includes c raw = false -> JS.includes c (DP2.formattedDate raw) = false.
Proof.
  intros H0 Hd Hraw. unfold DP2.formattedDate.
  destruct (JS.includes "/" raw); [|done].
  destruct (JS.split "/" raw) as [|p0 [|p1 [|p2 [|]]]] eqn:E; try done.
  assert (forall p, p ∈ JS.split "/" raw -> JS.includes c p = false) as Hp.
  { intros p Hin. by apply (proj2 (split_parts c "/" raw p Hin)). }
  rewrite E in Hp.
  assert (JS.includes c p0 = false) as H0' by (apply Hp; set_solver).
  assert (JS.includes c p1 = false) as H1' by (apply Hp; set_solver).
  assert (JS.includes c p2 = false) as H2' by (apply Hp; set_solver).
  rewrite !includes_app, H2', !padStart2_includes by done.
  cbn [JS.includes]. by rewrite Hd.
Qed.

(** The same for the slash, which the parts never hold. *)
Lemma formattedDate_three_no_slash raw p0 p1 p2 :
  JS.split "/" raw = [p0; p1; p2] ->
  JS.includes "/" (DP2.formattedDate raw) = false.
Proof.
  intros E. rewrite (Dates.formattedDate_three _ _ _ _ E).
  assert (forall p, p ∈ JS.split "/" raw -> JS.includes "/" p = false) as Hp.
  { intros p Hin. apply (proj1 (split_parts "/" "/" raw p Hin)). }
  rewrite E in Hp.
  assert (JS.includes "/" p0 = false) as H0' by (apply Hp; set_solver).
  assert (JS.includes "/" p1 = false) as H1' by (apply Hp; set_solver).
  assert (JS.includes "/" p2 = false) as H2' by (apply Hp; set_solver).
  rewrite !includes_app, H2', !padStart2_includes by done.
  done.
Qed.

(** X4. Rewriting a date twice is rewriting it once: a rewritten date is
    stored unchanged when it is read again.  A date part that splits
    into three parts at its slashes is stored without any slash. *)
Theorem X4_formattedDate_idempotent (raw : string) :
  DP2.formattedDate (DP2.formattedDate raw) = DP2.formattedDate raw
  /\ (length (JS.split "/" raw) = 3%nat ->
      JS.includes "/" (DP2.formattedDate raw) = false).
Proof.
  split.
  - destruct (JS.split "/" raw) as [|p0 [|p1 [|p2 [|p3 l]]]] eqn:E;
      try (rewrite (Dates.formattedDate_other raw) by (right; by rewrite E);
           apply Dates.formattedDate_other; right; by rewrite E).
    apply Dates.formattedDate_other. left.
    by apply (formattedDate_three_no_slash _ _ _ _ E).
  - destruct (JS.split "/" raw) as [|p0 [|p1 [|p2 [|p3 l]]]] eqn:E; try done.
    intros _. by apply (formattedDate_three_no_slash _ _ _ _ E).
Qed.

Lemma X4_witness : JS.includes "/" (DP2.formattedDate "12/5/2007") = false.
Proof.
  apply (proj2 (X4_formattedDate_idempotent "12/5/2007")).
  vm_compute. reflexivity.
Defined.

Lemma timePart_no_space row : JS.includes " " (timePart row) = false.
Proof.
  unfold timePart. destruct (JS.split " " (dateTime row) !! 1%nat) as [p|] eqn:E; [|done].
  cbn [JS.or_else]. destruct (JS.truthy p); [|done].
  apply (proj1 (split_parts " " " " (dateTime row) p (list_elem_of_lookup_2 _ _ _ E))).
Qed.

Lemma datePart_no_space row : JS.includes " " (datePart row) = false.
Proof.
  apply (proj1 (split_parts " " " " (dateTime row) _ (first_part_in _ _))).
Qed.

(** X5. A timestamp [D T], with no space inside [D] or [T], is stored
    as date [D] (rewritten, in the revised class) and time [T]; a
    timestamp without space is stored whole as the date, with an empty
    time; a row whose timestamp is missing or empty gets an empty date
    and an empty time. *)
Theorem X5_timestamp_parts (row : gmap string string) (d t s : string) :
  (JS.includes " " d = false -> JS.includes " " t = false ->
   row !! "date_time_occ" = Some (d +:+ " " +:+ t) ->
   date (DP.incident_of row) = d /\ time (DP.incident_of row) = t
   /\ date (DP2.incident_of row) = DP2.formattedDate d
   /\ time (DP2.incident_of row) = t)
  /\ (JS.includes " " s = false -> row !! "date_time_occ" = Some s ->
      date (DP.incident_of row) = s /\ time (DP.incident_of row) = ""
      /\ date (DP2.incident_of row) = DP2.formattedDate s
      /\ time (DP2.incident_of row) = "")
  /\ (row !! "date_time_occ" = None \/ row !! "date_time_occ" = Some "" ->
      date (DP.incident_of row) = "" /\ time (DP.incident_of row) = ""
      /\ date (DP2.incident_of row) = "" /\ time (DP2.incident_of row) = "").
Proof.
  unfold DP.incident_of, DP2.incident_of, make. cbn [date time].
  unfold datePart, timePart, dateTime. split_and!.
  - intros Hd Ht ->. cbn [JS.or_else].
    assert (JS.truthy (d +:+ " " +:+ t) = true) as -> by (by destruct d).
    change (d +:+ " " +:+ t) with (d +:+ String " " t).
    rewrite (split_app _ _ _ Hd), (JSFacts.split_without _ _ Ht). cbn.
    by destruct t.
  - intros Hs ->. cbn [JS.or_else]. destruct (JS.truthy s) eqn:Es.
    + by rewrite (JSFacts.split_without _ _ Hs).
    + by destruct s.
  - by intros [-> | ->].
Qed.

Lemma X5_witness :
  date (DP2.incident_of {[ "date_time_occ" := "12/5/2007 10:30:00" ]}) = "2007-12-05"
  /\ time (DP2.incident_of {[ "date_time_occ" := "12/5/2007 10:30:00" ]}) = "10:30:00".
Proof.
  destruct (proj1 (X5_timestamp_parts {[ "date_time_occ" := "12/5/2007 10:30:00" ]}
                     "12/5/2007" "10:30:00" "")) as (_ & _ & H1 & H2);
    [vm_compute; reflexivity..|].
  split; [exact H1|exact H2].
Defined.

(** X6. In both classes, neither the date nor the time of a record ever
    holds a space. *)
Theorem X6_no_space_stored (row : gmap string string) :
  JS.includes " " (date (DP.incident_of row)) = false
  /\ JS.includes " " (time (DP.incident_of row)) = false
  /\ JS.includes " " (date (DP2.incident_of row)) = false
  /\ JS.includes " " (time (DP2.incident_of row)) = false.
Proof.
  unfold DP.incident_of, DP2.incident_of, make. cbn [date time].
  split_and!; try apply timePart_no_space; try apply datePart_no_space.
  apply formattedDate_includes; [done..|apply datePart_no_space].
Qed.

End Timestamps.

(** ** More on the time of day *)

Module Hours.
Import Data Views.

Lemma table_values c0 c1 c2 c3 c4 c5 c6 e :
  Engine.values (Engine.histogram_of (table c0 c1 c2 c3 c4 c5 c6 e))
  = map JS.Num [c0; c1; c2; c3; c4; c5; c6] ++ (if e then [JS.NaN] else []).
Proof. by destruct e. Qed.

(** X7. Either histogram of [getRadarData] lists the seven labels, and
    after them an eighth entry, with the empty label and the value
    [NaN], exactly when some record of the histogram's type has a time
    whose hour is not from 0 to 23.  The labels and the values of a
    histogram have the same length. *)
Theorem X7_radar_eighth_entry (this : DP.t) :
  let all := DP.allIncidents this in
  let r := DP.getRadarData this in
  Engine.categories (Engine.enemy r)
  = Engine.labels ++ (if existsb (stray "Enemy Action") all then [""] else [])
  /\ drop 7 (Engine.values (Engine.enemy r))
     = (if existsb (stray "Enemy Action") all then [JS.NaN] else [])
  /\ Engine.categories (Engine.explosive r)
     = Engine.labels ++ (if existsb (stray "Explosive Hazard") all then [""] else [])
  /\ drop 7 (Engine.values (Engine.explosive r))
     = (if existsb (stray "Explosive Hazard") all then [JS.NaN] else [])
  /\ length (Engine.values (Engine.enemy r))
     = length (Engine.categories (Engine.enemy r))
  /\ length (Engine.values (Engine.explosive r))
     = length (Engine.categories (Engine.explosive r)).
Proof.
  cbv zeta. unfold DP.getRadarData, Engine.getRadarData.
  change Engine.radar_init with (table 0 0 0 0 0 0 0 false).
  rewrite Radar.radar_fold, !Radar.hist_fold. cbn [Engine.enemy Engine.explosive].
  rewrite !Radar.table_categories, !table_values. cbn [orb].
  split_and!; try done;
    by destruct (existsb _ _).
Qed.

(** The ten digits. *)
Lemma digit_chars c v :
  JS.digit_value 10 c = Some v ->
  In (c, v) [ ("0"%char, 0); ("1"%char, 1); ("2"%char, 2); ("3"%char, 3);
              ("4"%char, 4); ("5"%char, 5); ("6"%char, 6); ("7"%char, 7);
              ("8"%char, 8); ("9"%char, 9) ].
Proof.
  destruct c as [[] [] [] [] [] [] [] []]; vm_compute;
    intros H; try discriminate H; injection H as <-; tauto.
Qed.

(** X8. A time that starts with two digits and a colon has the number
    the two digits denote as its hour (a leading zero does not change
    the radix); when that number is below 24 the hour is in a bucket. *)
Theorem X8_two_digit_hour (i : incident) (a b : ascii) (rest : string)
    (x y : Z) :
  time i = String a (String b (String ":" rest)) ->
  JS.digit_value 10 a = Some x -> JS.digit_value 10 b = Some y ->
  Engine.hour i = JS.Num (10 * x + y)
  /\ (10 * x + y < 24 -> JS.in_range (Engine.hour i) 0 24 = true).
Proof.
  intros Ht Ha Hb.
  assert (Engine.hour i = JS.Num (10 * x + y)) as Hh.
  { unfold Engine.hour. rewrite Ht. clear Ht.
    apply digit_chars in Ha, Hb. cbn [In] in Ha, Hb.
    repeat (destruct Ha as [Ha|Ha]; [injection Ha as <- <-|]); [..|done];
      repeat (destruct Hb as [Hb|Hb]; [injection Hb as <- <-|]); try done;
      vm_compute; reflexivity. }
  split; [done|]. intros H. rewrite Hh. apply Radar.in_range_in.
  apply Dates.digit_value_range in Ha, Hb. lia.
Qed.

Lemma X8_witness :
  Engine.hour (DP.incident_of {[ "date_time_occ" := "2007-12-05 07:45:00" ]})
  = JS.Num 7.
Proof.
  refine (proj1 (X8_two_digit_hour
    (DP.incident_of {[ "date_time_occ" := "2007-12-05 07:45:00" ]})
    "0" "7" "45:00" 0 7 _ _ _)); vm_compute; reflexivity.
Defined.

End Hours.

(** ** More on the tree map and on what can throw *)

Module Groups.
Import Data Views.

Lemma count_found (p : incident -> bool) l i :
  i ∈ l -> p i = true -> 1 <= Spec.count p l.
Proof.
  intros Hi Hp. unfold Spec.count.
  assert (In i (List.filter p l)) as Hin
    by (apply filter_In; split; [by apply list_elem_of_In|done]).
  destruct (List.filter p l); [done|]. simpl length. lia.
Qed.

Lemma treemap_names all :
  map Engine.name (Spec.treemap all) = Obj.key_order (JS.unique (map type all)).
Proof.
  unfold Spec.treemap, Spec.treemap_by. rewrite map_map. apply map_id.
Qed.

Lemma elem_of_cats t all c :
  c ∈ cats t all <-> exists i, i ∈ all /\ type i = t /\ category i = c.
Proof.
  unfold cats. rewrite JSFacts.elem_of_unique, list_elem_of_In, in_map_iff. split.
  - intros (i & <- & [Hi Ht]%filter_In). exists i.
    split_and!; [by apply list_elem_of_In|by apply String.eqb_eq|done].
  - intros (i & Hi & Ht & <-). exists i. split; [done|]. apply filter_In.
    split; [by apply list_elem_of_In|by apply String.eqb_eq].
Qed.

(** X9. Provided no record's type or category is the name of a member
    of [Object.prototype], the series of [getTreemapData] has one group
    for each type of a record and no other, no two groups of the same
    name, no empty group, no category twice in a group, and only counts
    of at least one. *)
Theorem X9_treemap_groups (this : DP.t) :
  let all := DP.allIncidents this in
  Forall Spec.plain all ->
  exists s,
    DP.getTreemapData this = Returns s
    /\ NoDup (map Engine.name s)
    /\ (forall t, t ∈ map Engine.name s <-> exists i, i ∈ all /\ type i = t)
    /\ Forall (fun g =>
         Engine.data g <> []
         /\ NoDup (map Engine.x (Engine.data g))
         /\ Forall (fun p => exists n, Engine.y p = JS.Num n /\ 1 <= n)
                   (Engine.data g)) s.
Proof.
  cbv zeta. intros H. exists (Spec.treemap (DP.allIncidents this)).
  set (all := DP.allIncidents this) in *. split_and!.
  - unfold DP.getTreemapData, Engine.getTreemapData. fold all.
    rewrite Treemap.treemapData_outer by done. cbn [mbind outcome_bind].
    by rewrite Treemap.series_of_outer.
  - rewrite treemap_names, Table.key_order_Permutation. apply JSFacts.NoDup_unique.
  - intros t. rewrite treemap_names, Table.key_order_Permutation,
      JSFacts.elem_of_unique, list_elem_of_In, in_map_iff.
    split; intros (i & H1 & H2); exists i; split; try done; by apply list_elem_of_In.
  - unfold Spec.treemap, Spec.treemap_by. apply Forall_forall.
    intros g (t & <- & Ht)%list_elem_of_In%in_map_iff. cbn [Engine.data].
    apply list_elem_of_In in Ht.
    rewrite Table.key_order_Permutation, JSFacts.elem_of_unique in Ht.
    apply list_elem_of_In, in_map_iff in Ht as (i & <- & Hi).
    apply list_elem_of_In in Hi. fold (cats (type i) all). split_and!.
    + assert (category i ∈ Obj.key_order (cats (type i) all)) as Hc.
      { rewrite Table.key_order_Permutation. apply elem_of_cats. by exists i. }
      destruct (Obj.key_order (cats (type i) all)); [by apply elem_of_nil in Hc|done].
    + rewrite map_map. cbn [Engine.x]. rewrite map_id.
      rewrite Table.key_order_Permutation. apply JSFacts.NoDup_unique.
    + apply Forall_forall. intros p (c & <- & Hc)%list_elem_of_In%in_map_iff.
      apply list_elem_of_In in Hc.
      rewrite Table.key_order_Permutation in Hc.
      apply elem_of_cats in Hc as (j & Hj & Hjt & Hjc).
      eexists. split; [done|]. apply (count_found _ _ j Hj).
      unfold Spec.pair_is. rewrite Hjt, Hjc, !String.eqb_refl. done.
Qed.

Lemma X9_witness :
  exists s,
    DP.getTreemapData
      (DP.loadData HostDate.iso_date
         [ {[ "Incident Type" := "Enemy Action"; "Incident Category" := "Direct Fire" ]};
           {[ "Incident Type" := "Enemy Action"; "Incident Category" := "IED Explosion" ]} ]
         None)
    = Returns s
    /\ map Engine.name s = ["Enemy Action"].
Proof.
  destruct (X9_treemap_groups
    (DP.loadData HostDate.iso_date
       [ {[ "Incident Type" := "Enemy Action"; "Incident Category" := "Direct Fire" ]};
         {[ "Incident Type" := "Enemy Action"; "Incident Category" := "IED Explosion" ]} ]
       None)) as (s & Hs & _).
  - vm_compute. repeat constructor.
  - exists s. split; [exact Hs|].
    vm_compute in Hs. injection Hs as <-. reflexivity.
Defined.

(** The table of the count holds no inherited name as long as the
    records' types are none. *)
Lemma get_set_other {V} (m : list (string * V)) k k' v :
  k' <> k -> Assoc.get (Assoc.set m k v) k' = Assoc.get m k'.
Proof.
  intros Hne. induction m as [|[k0 v0] m IH]; simpl.
  - destruct (String.eqb_spec k k'); [congruence|done].
  - destruct (String.eqb_spec k0 k) as [->|Hk0]; simpl.
    + destruct (String.eqb_spec k k'); [congruence|done].
    + destruct (String.eqb_spec k0 k'); [done|apply IH].
Qed.

Lemma tally_no_inherited t a b t' k :
  Obj.inherited a = false -> Obj.inherited k = true ->
  Assoc.get t k = None ->
  Engine.tally t a b = Returns t' -> Assoc.get t' k = None.
Proof.
  intros Ha Hk Hg. assert (k <> a) as Hne by (intros ->; congruence).
  unfold Engine.tally, Obj.get. rewrite Ha.
  destruct (Assoc.get t a) eqn:E.
  - rewrite E. intros [= <-]. by rewrite get_set_other.
  - rewrite Loops.get_set_same. intros [= <-]. by rewrite !get_set_other.
Qed.

Lemma for_of_no_inherited l : forall t t' k,
  Forall (fun i => Obj.inherited (type i) = false) l ->
  Obj.inherited k = true -> Assoc.get t k = None ->
  for_of (fun t i => Engine.tally t (type i) (category i)) t l = Returns t' ->
  Assoc.get t' k = None.
Proof.
  induction l as [|i l IH]; intros t t' k Hl Hk Hg; cbn [for_of].
  - by intros [= <-].
  - apply Forall_cons in Hl as [Hi Hl].
    destruct (Engine.tally t (type i) (category i)) as [t1| |] eqn:E; cbn;
      [|done|done].
    apply IH; [done|done|]. by eapply tally_no_inherited.
Qed.

Lemma for_of_app {A S} (body : S -> A -> outcome S) l1 l2 s :
  for_of body s (l1 ++ l2) = (s' ← for_of body s l1; for_of body s' l2).
Proof.
  revert s. induction l1 as [|a l1 IH]; intros s; cbn [for_of app]; [done|].
  destruct (body s a); cbn; [apply IH|done|done].
Qed.

(** The count throws at the first record whose type is an inherited name
    when that record makes it write a read-only property. *)
Lemma treemap_throws_at (pre post : list incident) (i : incident) :
  Forall (fun j => Obj.inherited (type j) = false) pre ->
  Obj.inherited_function (type i) = true ->
  category i ∈ ["name"; "length"]
  \/ (type i = "constructor" /\ category i = "prototype") ->
  Engine.getTreemapData (pre ++ i :: post) = Throws.
Proof.
  intros Hpre Hf Hc. unfold Engine.getTreemapData, Engine.treemapData.
  rewrite for_of_app.
  assert (forall s j, j ∈ pre ->
            exists s', Engine.tally s (type j) (category j) = Returns s') as Hr.
  { intros s j Hj. apply Loops.tally_returns. by eapply Forall_forall in Hpre. }
  destruct (Loops.for_of_returns
    (fun t i => Engine.tally t (type i) (category i)) pre Hr []) as [t Ht].
  rewrite Ht. cbn [mbind outcome_bind for_of].
  assert (Obj.inherited (type i) = true) as Hi.
  { unfold Obj.inherited. by rewrite Hf. }
  assert (Assoc.get t (type i) = None) as Hg.
  { by apply (for_of_no_inherited pre [] t (type i) Hpre Hi eq_refl Ht). }
  assert (Engine.tally t (type i) (category i) = Throws) as ->; [|done].
  unfold Engine.tally, Obj.get. rewrite Hg, Hi, Hg, Hf.
  destruct Hc as [Hc|[-> ->]].
  - by rewrite bool_decide_eq_true_2.
  - by rewrite orb_true_r.
Qed.

(** The count goes through when no type is an inherited name. *)
Lemma treemap_returns (l : list incident) :
  Forall (fun j => Obj.inherited (type j) = false) l ->
  exists s, Engine.getTreemapData l = Returns s.
Proof.
  intros H. unfold Engine.getTreemapData, Engine.treemapData.
  edestruct (Loops.for_of_returns
    (fun t i => Engine.tally t (type i) (category i)) l) as [t ->]; [|by eexists].
  intros s j Hj. apply Loops.tally_returns. by eapply Forall_forall in H.
Qed.

(** X10. [getTreemapData] returns a series whenever no record's type is
    the name of a member of [Object.prototype], whatever the categories
    are; and it throws when the first record whose type is such a name
    has the name of a function of [Object.prototype] as its type and
    [name] or [length] as its category, or has the type [constructor]
    and the category [prototype]. *)
Theorem X10_treemap_returns_or_throws (this : DP.t)
    (pre post : list incident) (i : incident) :
  (Forall (fun j => Obj.inherited (type j) = false) (DP.allIncidents this) ->
   exists s, DP.getTreemapData this = Returns s)
  /\ (DP.allIncidents this = pre ++ i :: post ->
      Forall (fun j => Obj.inherited (type j) = false) pre ->
      Obj.inherited_function (type i) = true ->
      category i ∈ ["name"; "length"]
      \/ (type i = "constructor" /\ category i = "prototype") ->
      DP.getTreemapData this = Throws).
Proof.
  unfold DP.getTreemapData. split.
  - apply treemap_returns.
  - intros -> Hpre Hf Hc. by apply treemap_throws_at.
Qed.

Lemma X10_witness :
  (exists s,
     DP.getTreemapData
       (DP.loadData HostDate.iso_date
          [ {[ "Incident Type" := "Enemy Action"; "Incident Category" := "constructor" ]} ]
          None)
     = Returns s)
  /\ DP.getTreemapData
       (DP.loadData HostDate.iso_date
          [ {[ "Incident Type" := "Enemy Action"; "Incident Category" := "IED" ]};
            {[ "Incident Type" := "valueOf"; "Incident Category" := "length" ]};
            {[ "Incident Type" := "Enemy Action"; "Incident Category" := "IED" ]} ]
          None)
     = Throws.
Proof.
  split.
  - apply (proj1 (X10_treemap_returns_or_throws
      (DP.loadData HostDate.iso_date
         [ {[ "Incident Type" := "Enemy Action"; "Incident Category" := "constructor" ]} ]
         None) [] [] (DP.incident_of ∅))).
    vm_compute. repeat constructor.
  - refine (proj2 (X10_treemap_returns_or_throws _
      [DP.incident_of {[ "Incident Type" := "Enemy Action"; "Incident Category" := "IED" ]}]
      [DP.incident_of {[ "Incident Type" := "Enemy Action"; "Incident Category" := "IED" ]}]
      (DP.incident_of {[ "Incident Type" := "valueOf"; "Incident Category" := "length" ]}))
      _ _ _ _).
    + vm_compute. reflexivity.
    + vm_compute. repeat constructor.
    + vm_compute. reflexivity.
    + left. vm_compute. apply list_elem_of_further, list_elem_of_here.
Defined.

End Groups.

(** ** The two classes side by side *)

Module Versions.
Import Data Views Notions.

Lemma loaders_alike rows :
  Forall2 alike (map DP2.incident_of rows) (map DP.incident_of rows).
Proof. induction rows; constructor; [by repeat split|done]. Qed.

Lemma radar_alike l1 l2 s :
  Forall2 alike l1 l2 ->
  foldl Engine.radar_step s l1 = foldl Engine.radar_step s l2.
Proof.
  intros H. revert s. induction H as [|i j l1 l2 (Ht & _ & _ & Hti) _ IH];
    intros s; cbn [foldl]; [done|].
  rewrite IH. f_equal. unfold Engine.radar_step, Engine.hour.
  by rewrite Ht, Hti.
Qed.

Lemma treemap_alike l1 l2 t :
  Forall2 alike l1 l2 ->
  for_of (fun t i => Engine.tally t (type i) (category i)) t l1
  = for_of (fun t i => Engine.tally t (type i) (category i)) t l2.
Proof.
  intros H. revert t. induction H as [|i j l1 l2 (Ht & Hc & _) _ IH];
    intros t; cbn [for_of]; [done|].
  rewrite Ht, Hc. destruct (Engine.tally _ _ _); cbn; [apply IH|done|done].
Qed.

Lemma map_alike (f : incident -> string) l1 l2 :
  (forall i j, alike i j -> f i = f j) ->
  Forall2 alike l1 l2 -> map f l1 = map f l2.
Proof.
  intros Hf H. induction H as [|i j l1 l2 Hij _ IH]; cbn; [done|].
  by rewrite (Hf _ _ Hij), IH.
Qed.

(** X12. On the same rows the revised class gives the same metadata and
    the same radar data as [src/data-processor.js], and the same tree
    map series, wrapped in an object: rewriting the dates changes none
    of them. *)
Theorem X12_classes_agree (P : string -> JS.number)
    (rows : list (gmap string string)) (b h : option Json.json) :
  let st := DP.loadData P rows b in
  let st2 := DP2.loadData rows b h in
  DP2.getMetadata st2 = DP.getMetadata st
  /\ DP2.getRadarData st2 = DP.getRadarData st
  /\ DP2.getTreemapData st2
     = (s ← DP.getTreemapData st; Returns {| DP2.series := s |})
  /\ DP2.getBoundary st2 = DP.getBoundary st.
Proof.
  cbv zeta. rewrite Load.dp_loaded, Load.dp2_loaded.
  pose proof (loaders_alike rows) as H.
  unfold DP2.getMetadata, DP.getMetadata, DP2.getRadarData, DP.getRadarData,
    DP2.getTreemapData, DP.getTreemapData, DP2.getBoundary, DP.getBoundary.
  cbn [DP.types DP.categories DP.provinces DP.allIncidents DP.iraqBoundary
       DP2.types DP2.categories DP2.provinces DP2.allIncidents DP2.iraqBoundary].
  split_and!; [| | |done].
  - rewrite (map_alike type _ _ ltac:(by intros ?? (?&?&?&?)) H),
      (map_alike category _ _ ltac:(by intros ?? (?&?&?&?)) H),
      (map_alike province _ _ ltac:(by intros ?? (?&?&?&?)) H). done.
  - unfold Engine.getRadarData. by rewrite (radar_alike _ _ _ H).
  - unfold Engine.getTreemapData, Engine.treemapData.
    rewrite (treemap_alike _ _ _ H).
    by destruct (for_of _ _ _).
Qed.

(** ** The heat map and the date list *)

(** X13. In [src/data-processor.js], after [loadData] and provided no
    record's date begins, up to its first hyphen, with the name of a
    member of [Object.prototype], the dates of [getHeatmapData] are the
    non-empty dates of [getDates], in some order, and there are as many
    counts as dates. *)
Theorem X13_heatmap_dates_listed (P : string -> JS.number)
    (rows : list (gmap string string)) (b : option Json.json) :
  let st := DP.loadData P rows b in
  Forall (fun i => Obj.inherited (DP.year_of (date i)) = false)
         (DP.allIncidents st) ->
  exists hm,
    DP.getHeatmapData st = Returns hm
    /\ DP.hm_dates hm ≡ₚ List.filter JS.truthy (DP.getDates st)
    /\ length (DP.hm_counts hm) = length (DP.hm_dates hm).
Proof.
  cbv zeta. intros H. eexists. split; [by apply Heatmap.heatmap_returns|].
  cbn [DP.hm_dates DP.hm_counts]. split; [|by rewrite length_map].
  rewrite Load.dp_loaded. unfold DP.getDates. cbn [DP.allIncidents DP.dates].
  set (incs := map DP.incident_of rows).
  apply NoDup_Permutation.
  - unfold heat_dates. apply JSFacts.NoDup_sort, JSFacts.NoDup_unique.
  - eapply sublist_NoDup; [|apply Narrowing.filter_sublist].
    rewrite JSFacts.sort_by_Permutation. apply JSFacts.NoDup_unique.
  - intros d. rewrite Heatmap.elem_of_heat_dates.
    assert (d ∈ List.filter JS.truthy (JS.sort_by (DP.by_date P) (JS.unique (map date incs)))
            <-> d ∈ JS.unique (map date incs) /\ JS.truthy d = true) as ->.
    { rewrite list_elem_of_In, filter_In, <- list_elem_of_In.
      by rewrite JSFacts.sort_by_Permutation. }
    rewrite JSFacts.elem_of_unique. tauto.
Qed.

Lemma X13_witness :
  exists hm,
    DP.getHeatmapData
      (DP.loadData HostDate.iso_date
         [ {[ "date_time_occ" := "2008-01-02 09:00:00" ]};
           ∅;
           {[ "date_time_occ" := "2007-12-05 10:30:00" ]} ] None)
    = Returns hm
    /\ DP.hm_dates hm = ["2007-12-05"; "2008-01-02"].
Proof.
  destruct (X13_heatmap_dates_listed HostDate.iso_date
    [ {[ "date_time_occ" := "2008-01-02 09:00:00" ]};
      ∅;
      {[ "date_time_occ" := "2007-12-05 10:30:00" ]} ] None) as (hm & Hhm & _).
  - vm_compute. repeat constructor.
  - exists hm. split; [exact Hhm|].
    vm_compute in Hhm. injection Hhm as <-. reflexivity.
Defined.

End Versions.
(** ** A second [loadData] on the same instance *)

Module Reloading.
Import Data Views.

(** The row handler from any state whose index and sets are those of the
    records [incs]: the other fields are left as they are. *)
Lemma on_data_from rows : forall loc this incs,
  DP.dateIndex this = index_of incs ->
  DP.types this = JS.unique (map type incs) ->
  DP.categories this = JS.unique (map category incs) ->
  DP.provinces this = JS.unique (map province incs) ->
  let r := foldl DP.on_data (loc, this) rows in
  let all := incs ++ map DP.incident_of rows in
  r.1 = loc ++ map DP.incident_of rows
  /\ DP.dateIndex r.2 = index_of all
  /\ DP.types r.2 = JS.unique (map type all)
  /\ DP.categories r.2 = JS.unique (map category all)
  /\ DP.provinces r.2 = JS.unique (map province all)
  /\ DP.iraqBoundary r.2 = DP.iraqBoundary this.
Proof.
  induction rows as [|row rows IH]; intros loc this incs Hi Ht Hc Hp; cbn zeta.
  - cbn [foldl map fst snd]. by rewrite !app_nil_r.
  - cbn [foldl map].
    destruct (IH (loc ++ [DP.incident_of row]) (DP.on_data (loc, this) row).2
                 (incs ++ [DP.incident_of row])) as (H1 & H2 & H3 & H4 & H5 & H6).
    + cbn. rewrite Hi. change (datePart row) with (date (DP.incident_of row)).
      apply Load.index_date_snoc.
    + cbn. by rewrite Ht, JSFacts.unique_map_snoc.
    + cbn. by rewrite Hc, JSFacts.unique_map_snoc.
    + cbn. by rewrite Hp, JSFacts.unique_map_snoc.
    + change (DP.on_data (loc, this) row)
        with (loc ++ [DP.incident_of row], (DP.on_data (loc, this) row).2).
      rewrite H1, H2, H3, H4, H5, H6, <- !app_assoc. done.
Qed.

(** X14. [loadData] called a second time on the same instance does not
    start over: the date index, the date list and the three sets then
    cover the rows of both loads, as one load of [rows1 ++ rows2] would
    give them, while [allIncidents], which the tree map, the radar and
    the heat map read, holds the second load's records only.  The
    boundary is the second file's if it exists and the first one's
    otherwise. *)
Theorem X14_second_load (P : string -> JS.number)
    (rows1 rows2 : list (gmap string string)) (b1 b2 : option Json.json) :
  let st1 := DP.loadData P rows1 b1 in
  let st := Reload.loadData P st1 rows2 b2 in
  let both := DP.loadData P (rows1 ++ rows2) b2 in
  (forall d f, DP.getIncidents st d f = DP.getIncidents both d f)
  /\ DP.getDates st = DP.getDates both
  /\ DP.getMetadata st = DP.getMetadata both
  /\ DP.allIncidents st = map DP.incident_of rows2
  /\ DP.getTreemapData st = DP.getTreemapData (DP.loadData P rows2 b2)
  /\ DP.getRadarData st = DP.getRadarData (DP.loadData P rows2 b2)
  /\ DP.getHeatmapData st = DP.getHeatmapData (DP.loadData P rows2 b2)
  /\ DP.getBoundary st = default (DP.getBoundary st1) b2.
Proof.
  cbv zeta. unfold Reload.loadData.
  rewrite !Load.dp_loaded. cbv zeta.
  match goal with
  | |- context [foldl DP.on_data ([], ?this) rows2] =>
      destruct (on_data_from rows2 [] this (map DP.incident_of rows1)
                  eq_refl eq_refl eq_refl eq_refl)
        as (H1 & H2 & H3 & H4 & H5 & H6);
      destruct (foldl DP.on_data ([], this) rows2) as [loc r] eqn:E
  end.
  cbn [fst snd] in *. cbn [app] in H1. subst loc.
  unfold DP.on_end, DP.getIncidents, DP.getDates, DP.getMetadata,
    DP.getTreemapData, DP.getRadarData, DP.getHeatmapData, DP.getBoundary.
  cbn [DP.dateIndex DP.dates DP.types DP.categories DP.provinces
       DP.allIncidents DP.iraqBoundary] in *.
  rewrite H2, H3, H4, H5, H6, map_app, Load.index_keys. done.
Qed.

(** The same date in both files: a look-up after the second load gives
    the records of both, yet the tree map counts one. *)
Lemma second_load_example :
  let row := {[ "date_time_occ" := "2007-12-05 10:30:00" ]} : gmap string string in
  let st := Reload.loadData HostDate.iso_date
              (DP.loadData HostDate.iso_date [row] None) [row] None in
  length (DP.getIncidents st "2007-12-05" Filter.none) = 2%nat
  /\ length (DP.allIncidents st) = 1%nat.
Proof. vm_compute. done. Qed.

End Reloading.
(** ** The routes of [src/server.js] *)

Module Routes.
Import Data Views.

(** X15. The tree map route of a server that has loaded [rows] answers
    200 with the series of [getTreemapData] whenever no row's type is
    the name of a member of [Object.prototype]; and it answers 500 with
    the message "Failed to generate treemap data" when the first row
    whose type is such a name has the name of a function of
    [Object.prototype] as its type and [name] or [length] as its
    category, or has the type [constructor] and the category
    [prototype]: the exception of the query is caught by the route. *)
Theorem X15_treemap_route (P : string -> JS.number)
    (rows pre post : list (gmap string string)) (row : gmap string string)
    (b : option Json.json) :
  let s := (Server.startServer P (Server.Ends rows b)).2 in
  (Forall (fun r => Obj.inherited (type (DP.incident_of r)) = false) rows ->
   exists series,
     DP.getTreemapData (Server.dataProcessor s) = Returns series
     /\ Server.handle s Server.ApiTreemap
        = Returns (Server.json (Server.Series series)))
  /\ (rows = pre ++ row :: post ->
      Forall (fun r => Obj.inherited (type (DP.incident_of r)) = false) pre ->
      Obj.inherited_function (type (DP.incident_of row)) = true ->
      category (DP.incident_of row) ∈ ["name"; "length"]
      \/ (type (DP.incident_of row) = "constructor"
          /\ category (DP.incident_of row) = "prototype") ->
      Server.handle s Server.ApiTreemap
      = Returns {| Server.status := 500;
                   Server.body := Server.Error "Failed to generate treemap data" |}).
Proof.
  cbv zeta. cbn [Server.startServer snd]. unfold Server.handle.
  cbn [Server.dataProcessor]. unfold Server.ensureDataLoaded.
  cbn [Server.dataLoaded negb]. unfold DP.getTreemapData.
  rewrite Load.dp_loaded. cbn [DP.allIncidents]. split.
  - intros H. destruct (Groups.treemap_returns (map DP.incident_of rows))
      as [series Hs]; [by apply Forall_map|].
    exists series. by rewrite Hs.
  - intros -> Hpre Hf Hc. rewrite map_app. cbn [map].
    rewrite Groups.treemap_throws_at; [done| |done|done].
    by apply Forall_map.
Qed.

Lemma X15_witness :
  Server.handle
    (Server.startServer HostDate.iso_date
       (Server.Ends
          [ {[ "Incident Type" := "Enemy Action"; "Incident Category" := "IED" ]};
            {[ "Incident Type" := "toString"; "Incident Category" := "length" ]} ]
          None)).2
    Server.ApiTreemap
  = Returns {| Server.status := 500;
               Server.body := Server.Error "Failed to generate treemap data" |}.
Proof.
  refine (proj2 (X15_treemap_route HostDate.iso_date _
    [ {[ "Incident Type" := "Enemy Action"; "Incident Category" := "IED" ]} ] []
    {[ "Incident Type" := "toString"; "Incident Category" := "length" ]} None)
    _ _ _ _).
  - reflexivity.
  - vm_compute. repeat constructor.
  - vm_compute. reflexivity.
  - left. vm_compute. apply list_elem_of_further, list_elem_of_here.
Defined.

(** X16. The incidents route of a server that has loaded [rows] always
    answers 200, also for a date that no row has: the answer echoes the
    date as it was asked, its count is the length of its list, every
    record of the list has the date asked for, the list is a subsequence
    of the loaded records, and it is empty when no row has that date
    part. *)
Theorem X16_incidents_route (P : string -> JS.number)
    (rows : list (gmap string string)) (b : option Json.json)
    (d : string) (ty c p : Filter.value) :
  let s := (Server.startServer P (Server.Ends rows b)).2 in
  exists incs,
    Server.handle s (Server.ApiIncidents d ty c p)
    = Returns {| Server.status := 200;
                 Server.body := Server.Incidents d (length incs) incs |}
    /\ Forall (fun i => date i = d) incs
    /\ incs `sublist_of` map DP.incident_of rows
    /\ (d ∉ map datePart rows -> incs = []).
Proof.
  cbv zeta. eexists. split; [reflexivity|].
  cbn [Server.startServer snd Server.dataProcessor].
  rewrite Load.dp_loaded. unfold DP.getIncidents. cbn [DP.dateIndex].
  set (incs := map DP.incident_of rows).
  split_and!.
  - apply Forall_forall. intros r Hr. by apply Lookup.lookup_date in Hr.
  - rewrite Lookup.getIncidents_narrows, Load.index_get.
    etrans; [apply Narrowing.filter_sublist|apply Narrowing.filter_sublist].
  - intros Hd. rewrite Lookup.getIncidents_narrows, Load.index_get.
    rewrite Load.bucket_of_unseen; [done|].
    unfold incs. by rewrite map_map.
Qed.

Lemma X16_witness :
  Server.handle
    (Server.startServer HostDate.iso_date
       (Server.Ends [ {[ "date_time_occ" := "2007-12-05 10:30:00" ]} ] None)).2
    (Server.ApiIncidents "2008-01-02" Filter.Absent Filter.Absent Filter.Absent)
  = Returns {| Server.status := 200;
               Server.body := Server.Incidents "2008-01-02" 0 [] |}.
Proof.
  destruct (X16_incidents_route HostDate.iso_date
    [ {[ "date_time_occ" := "2007-12-05 10:30:00" ]} ] None
    "2008-01-02" Filter.Absent Filter.Absent Filter.Absent)
    as (incs & H & _ & _ & He).
  rewrite H, He; [reflexivity|].
  vm_compute. intros Hin.
  by repeat (apply elem_of_cons in Hin as [Hin|Hin]; [done|]);
    apply elem_of_nil in Hin.
Defined.

(** X17. The server listens exactly when the load has set the flag, so
    a server that listens never gives the 503 answer of
    [ensureDataLoaded], and its root route reports "ready"; had a
    request come before, every [/api] route would answer 503 without
    running its query. *)
Theorem X17_listening_is_loaded (P : string -> JS.number)
    (src : Server.source) (s0 : Server.t) (r : Server.request) :
  let ph := (Server.startServer P src).1 in
  let s := (Server.startServer P src).2 in
  (ph = Server.Listening <-> Server.dataLoaded s = true)
  /\ (ph = Server.Listening ->
      DP.isLoaded (Server.dataProcessor s) = true
      /\ (forall resp, Server.handle s r = Returns resp ->
                       Server.status resp <> 503)
      /\ exists m e, Server.handle s Server.Root
                     = Returns (Server.json (Server.Health m "ready" e)))
  /\ (Server.dataLoaded s0 = false ->
      r <> Server.Root -> r <> Server.Unrouted ->
      Server.handle s0 r
      = Returns {| Server.status := 503;
                   Server.body := Server.Error
                     "Server is still loading data. Please try again in a moment." |}).
Proof.
  cbv zeta. split_and!.
  - destruct src; cbn; split; done.
  - destruct src; cbn [Server.startServer fst snd]; [intros _|done].
    split_and!; [by rewrite Load.dp_loaded| |by eexists _, _].
    intros resp.
    destruct r; cbn -[DP.getTreemapData DP.getHeatmapData DP.loadData];
      try (by intros [= <-]).
    + destruct (DP.getTreemapData _); cbn; [| |done]; by intros [= <-].
    + destruct (DP.getHeatmapData _); cbn; [| |done]; by intros [= <-].
    + destruct (Json.truthy _); cbn; by intros [= <-].
  - intros Hl H1 H2. destruct r; try done; cbn;
      unfold Server.ensureDataLoaded; by rewrite Hl.
Qed.

Lemma X17_witness :
  Server.handle
    {| Server.dataLoaded := false; Server.dataProcessor := DP.constructor |}
    Server.ApiTreemap
  = Returns {| Server.status := 503;
               Server.body := Server.Error
                 "Server is still loading data. Please try again in a moment." |}.
Proof.
  refine (proj2 (proj2 (X17_listening_is_loaded HostDate.iso_date
            (Server.Ends [] None) _ Server.ApiTreemap)) _ _ _);
    [reflexivity|discriminate|discriminate].
Defined.

(** X18. The boundary route of a server that has loaded answers with the
    parsed document when the file exists and its document is truthy, and
    with 404 "Boundary data not found" otherwise: also for a file that
    holds [null], [false], [0] or the empty string. *)
Theorem X18_boundary_route (P : string -> JS.number)
    (rows : list (gmap string string)) (b : option Json.json) :
  let s := (Server.startServer P (Server.Ends rows b)).2 in
  Server.handle s Server.ApiBoundary
  = Returns
      (match b with
       | Some doc =>
           if Json.truthy doc then Server.json (Server.Boundary doc)
           else {| Server.status := 404;
                   Server.body := Server.Error "Boundary data not found" |}
       | None => {| Server.status := 404;
                    Server.body := Server.Error "Boundary data not found" |}
       end).
Proof.
  cbv zeta. cbn [Server.startServer snd]. unfold Server.handle.
  cbn [Server.dataProcessor]. unfold Server.ensureDataLoaded.
  cbn [Server.dataLoaded negb]. unfold DP.getBoundary.
  rewrite Load.dp_loaded. cbn [DP.iraqBoundary].
  destruct b as [doc|]; cbn; [|done].
  by destruct (Json.truthy doc).
Qed.

End Routes.
